(** * SkillCert backend: quiz validation and course-progress gating

    A shallow embedding of two services of the backend,

    - [QuizValidationService] (validateQuiz and the per-type question
      validators), a pure function that either returns or throws, and
    - [CourseProgressService] (updateProgress, checkQuizRequirements,
      getCompletionRate), which reads and writes five repositories,

    followed by the properties the specification states about them.

    Conventions.  A TypeScript [throw] is the [Thrown] outcome; an [async]
    method is a function from the world (database and the list of
    repository calls issued so far) to an outcome and a new world; a
    JavaScript Number produced by floating-point arithmetic is an IEEE-754
    binary64 value ([spec_float] with precision 53). *)

From Stdlib Require Import ZArith String Ascii DecimalString List Lia.
From Stdlib Require Import Floats.SpecFloat.
From stdpp Require Import base list strings.

Open Scope string_scope.

(** ** Exceptions and outcomes *)

(** The two NestJS exception classes the services throw, with their
    message. *)
Inductive Exception : Type :=
  | BadRequestException (message : string)
  | NotFoundException (message : string).

(** What a call does: it returns a value or it throws. *)
Inductive Outcome (A : Type) : Type :=
  | Returned (value : A)
  | Thrown (e : Exception).

Arguments Returned {A} value.
Arguments Thrown {A} e.

(** ** The JavaScript primitives the services use *)

Module JS.

(** A JavaScript Number that is the result of floating-point
    arithmetic: IEEE-754 binary64. *)
Definition Number : Type := spec_float.

Definition prec : Z := 53.
Definition emax : Z := 1024.

(** The Number denoting an integer (exact below 2^53, rounded to nearest
    even above). *)
Definition of_Z (z : Z) : Number := binary_normalize prec emax z 0 false.

(** [x / y] and [x * y] on Numbers. *)
Definition div (x y : Number) : Number := SFdiv prec emax x y.
Definition mul (x y : Number) : Number := SFmul prec emax x y.

(** [Math.round(x)]: the integer closest to [x], ties going towards
    +infinity; NaN, the infinities and the zeros are returned as they
    are.  A finite value is [(-1)^s * m * 2^e]; with [e >= 0] it is an
    integer already, otherwise the result is [floor (x + 1/2)], computed
    exactly on the integers. *)
Definition Math_round (x : Number) : Number :=
  match x with
  | S754_finite s m e =>
      if (0 <=? e)%Z then x
      else binary_normalize prec emax
             (Z.shiftr (cond_Zopp s (Zpos m) + 2 ^ (- e - 1)) (- e)) 0 s
  | _ => x
  end.

#[global] Instance Number_eq_dec : EqDecision Number.
Proof. unfold Number. solve_decision. Defined.

(** [String(n)] for a non-negative integer: its decimal digits. *)
Definition Number_toString (n : nat) : string :=
  NilEmpty.string_of_uint (Nat.to_uint n).

(** [c.toLowerCase()] on one code unit.  Only the letters A-Z are
    mapped: the validator compares the result with the ASCII words
    true, false, yes and no, and no character outside ASCII lowercases
    to a letter of these words. *)
Definition lower_char (c : ascii) : ascii :=
  let n := nat_of_ascii c in
  if (65 <=? n)%nat && (n <=? 90)%nat then ascii_of_nat (n + 32) else c.

(** [s.toLowerCase()]. *)
Fixpoint toLowerCase (s : string) : string :=
  match s with
  | EmptyString => EmptyString
  | String c rest => String (lower_char c) (toLowerCase rest)
  end.

(** [arr.includes(x)] on an array of strings. *)
Definition includes (arr : list string) (x : string) : bool :=
  existsb (String.eqb x) arr.

(** [arr.forEach(callback)]: the callback is called on each element
    with its index, in order; an exception thrown by the callback leaves
    the loop and propagates. *)
Fixpoint forEach {A : Type} (callback : A -> nat -> Outcome unit)
    (arr : list A) (index : nat) : Outcome unit :=
  match arr with
  | [] => Returned tt
  | x :: rest =>
      match callback x index with
      | Thrown e => Thrown e
      | Returned _ => forEach callback rest (S index)
      end
  end.

(** The double-quote character of a template literal. *)
Definition dquote : string := String (ascii_of_nat 34) EmptyString.

End JS.

(** ** QuizValidationService *)

Module QuizValidation.

(** Modelled from the spec: the enum [QuestionType] is declared in
    question.entity, which is not among the sources; the spec gives its
    four members.  [Unlisted] stands for any other value that reaches
    the [default] branch of the switch at run time. *)
Inductive QuestionType : Type :=
  | UNIQUE | MULTIPLE | TEXT | BOOL
  | Unlisted (raw : string).

(** Modelled from the spec: the DTO classes are not among the sources.
    An answer has a text and a correct flag; a question has a type and
    an array of answers; a quiz has an array of questions.  The fields
    are arrays as the DTOs declare them, so the guards
    [!question.answers] and [!createQuizDto.questions] never fire on
    their own and the checks reduce to the length tests next to them. *)
Record CreateAnswerDto : Type :=
  { text : string; correct : bool }.

Record CreateQuestionDto : Type :=
  { type : QuestionType; answers : list CreateAnswerDto }.

Record CreateQuizDto : Type :=
  { questions : list CreateQuestionDto }.

(** [question.answers.filter((answer) => answer.correct)]. *)
Definition correctAnswers (question : CreateQuestionDto) : list CreateAnswerDto :=
  List.filter correct (answers question).

(** [`Question ${questionIndex + 1}`]. *)
Definition questionPrefix (questionIndex : nat) : string :=
  "Question " ++ JS.Number_toString (questionIndex + 1).

Definition validateUniqueQuestion (question : CreateQuestionDto)
    (questionPrefix : string) : Outcome unit :=
  if (length (answers question) <? 2)%nat then
    Thrown (BadRequestException
      (questionPrefix ++ ": Unique choice questions must have at least 2 answers"))
  else if negb (length (correctAnswers question) =? 1)%nat then
    Thrown (BadRequestException
      (questionPrefix ++ ": Unique choice questions must have exactly one correct answer"))
  else Returned tt.

Definition validateMultipleQuestion (question : CreateQuestionDto)
    (questionPrefix : string) : Outcome unit :=
  if (length (answers question) <? 2)%nat then
    Thrown (BadRequestException
      (questionPrefix ++ ": Multiple choice questions must have at least 2 answers"))
  else if (length (correctAnswers question) =? 0)%nat then
    Thrown (BadRequestException
      (questionPrefix ++ ": Multiple choice questions must have at least one correct answer"))
  else Returned tt.

(** The array has length 1 exactly when it is [[only]], and then
    [question.answers[0]] is [only]. *)
Definition validateTextQuestion (question : CreateQuestionDto)
    (questionPrefix : string) : Outcome unit :=
  match answers question with
  | [only] =>
      if negb (correct only) then
        Thrown (BadRequestException
          (questionPrefix ++ ": Text question answer must be marked as correct"))
      else Returned tt
  | _ =>
      Thrown (BadRequestException
        (questionPrefix ++ ": Text questions must have exactly one answer"))
  end.

(** [question.answers.map((a) => a.text.toLowerCase())]. *)
Definition answerTexts (question : CreateQuestionDto) : list string :=
  List.map (fun a => JS.toLowerCase (text a)) (answers question).

Definition hasValidBoolOptions (question : CreateQuestionDto) : bool :=
  let answerTexts := answerTexts question in
  (JS.includes answerTexts "true" && JS.includes answerTexts "false")
  || (JS.includes answerTexts "yes" && JS.includes answerTexts "no").

Definition validateBoolQuestion (question : CreateQuestionDto)
    (questionPrefix : string) : Outcome unit :=
  if negb (length (answers question) =? 2)%nat then
    Thrown (BadRequestException
      (questionPrefix ++ ": Boolean questions must have exactly 2 answers (true/false)"))
  else if negb (length (correctAnswers question) =? 1)%nat then
    Thrown (BadRequestException
      (questionPrefix ++ ": Boolean questions must have exactly one correct answer"))
  else if negb (hasValidBoolOptions question) then
    Thrown (BadRequestException
      (questionPrefix ++ ": Boolean questions should have true/false or yes/no answers"))
  else Returned tt.

Definition validateQuestion (question : CreateQuestionDto)
    (questionIndex : nat) : Outcome unit :=
  let questionPrefix := questionPrefix questionIndex in
  if (length (answers question) =? 0)%nat then
    Thrown (BadRequestException (questionPrefix ++ ": Must have at least one answer"))
  else
    match type question with
    | UNIQUE => validateUniqueQuestion question questionPrefix
    | MULTIPLE => validateMultipleQuestion question questionPrefix
    | TEXT => validateTextQuestion question questionPrefix
    | BOOL => validateBoolQuestion question questionPrefix
    | Unlisted _ =>
        Thrown (BadRequestException (questionPrefix ++ ": Invalid question type"))
    end.

Definition validateQuiz (createQuizDto : CreateQuizDto) : Outcome unit :=
  if (length (questions createQuizDto) =? 0)%nat then
    Thrown (BadRequestException "Quiz must have at least one question")
  else JS.forEach validateQuestion (questions createQuizDto) 0.

(** *** The error names of the specification

    The service throws one exception class and tells the rules apart by
    the message only.  The specification names the rules; [structural_error]
    reads the name back from a thrown exception: the quiz-level message
    as it is, a question-level message by its text after the
    [Question n:] prefix. *)
Inductive StructuralError : Type :=
  | EmptyQuiz | EmptyAnswers
  | InvalidUniqueQuestion | InvalidMultipleQuestion
  | InvalidTextQuestion | InvalidBoolQuestion
  | UnknownQuestionType.

(** The text after the first colon of a message (empty without one). *)
Fixpoint rule_text (message : string) : string :=
  match message with
  | EmptyString => EmptyString
  | String c rest => if Ascii.eqb c ":" then rest else rule_text rest
  end.

Definition rule_of_text (t : string) : option StructuralError :=
  if String.eqb t " Must have at least one answer" then Some EmptyAnswers
  else if String.eqb t " Unique choice questions must have at least 2 answers"
       || String.eqb t " Unique choice questions must have exactly one correct answer"
  then Some InvalidUniqueQuestion
  else if String.eqb t " Multiple choice questions must have at least 2 answers"
       || String.eqb t " Multiple choice questions must have at least one correct answer"
  then Some InvalidMultipleQuestion
  else if String.eqb t " Text questions must have exactly one answer"
       || String.eqb t " Text question answer must be marked as correct"
  then Some InvalidTextQuestion
  else if String.eqb t " Boolean questions must have exactly 2 answers (true/false)"
       || String.eqb t " Boolean questions must have exactly one correct answer"
       || String.eqb t " Boolean questions should have true/false or yes/no answers"
  then Some InvalidBoolQuestion
  else if String.eqb t " Invalid question type" then Some UnknownQuestionType
  else None.

Definition structural_error (e : Exception) : option StructuralError :=
  match e with
  | BadRequestException message =>
      if String.eqb message "Quiz must have at least one question"
      then Some EmptyQuiz
      else rule_of_text (rule_text message)
  | NotFoundException _ => None
  end.

(** The rule a validation outcome reports, if it is a failure. *)
Definition failure {A : Type} (o : Outcome A) : option StructuralError :=
  match o with
  | Returned _ => None
  | Thrown e => structural_error e
  end.

(** The first violation of a quiz, written after the specification's
    words rather than after the loop: every question is judged on its
    own at its position, the exceptions are listed in question order,
    and the first one is reported. *)
Definition violation (o : Outcome unit) : option Exception :=
  match o with
  | Thrown e => Some e
  | Returned _ => None
  end.

Definition first_violation (qs : list CreateQuestionDto) : option Exception :=
  head (omap violation (imap (fun i q => validateQuestion q i) qs)).

End QuizValidation.

(** ** Entities

    The entity classes (user, enrollment, lesson, quiz, quiz attempt,
    course progress) and the DTOs of the progress service are declared in
    files that are not among the sources.  Each record below has the
    properties the service reads, under the names the service uses;
    identifiers are the UUID strings the service compares. *)

Module User.
(** Modelled from the spec: the user entity, of which the service reads
    the id. *)
Record t : Type := { id : string }.
End User.

Module Enrollment.
(** Modelled from the spec: the enrollment entity, an association of a
    user to a course; it is loaded with [relations: ['user']], so the user
    is part of the object. *)
Record t : Type := { id : string; user : User.t }.
End Enrollment.

Module Lesson.
(** Modelled from the spec: the lesson entity, with its id and title. *)
Record t : Type := { id : string; title : string }.
End Lesson.

Module Quiz.
(** Modelled from the spec: the quiz entity; it belongs to a lesson and
    has a title. *)
Record t : Type := { id : string; title : string; lesson_id : string }.
End Quiz.

Module QuizAttempt.
(** Modelled from the spec: one attempt of one user at one quiz.  The
    table may hold several attempts of a user at a quiz. *)
Record t : Type := { user_id : string; quiz_id : string; passed : bool }.
End QuizAttempt.

(** Modelled from the spec: [ProgressStatus], with the three members the
    spec lists. *)
Inductive ProgressStatus : Type :=
  | NOT_STARTED | IN_PROGRESS | COMPLETED.

#[global] Instance ProgressStatus_eq_dec : EqDecision ProgressStatus.
Proof. solve_decision. Defined.

Module CourseProgress.
(** Modelled from the spec: the course-progress entity, which ties one
    enrollment to one lesson and has a status; a row of the progress
    table with its two relations loaded. *)
Record t : Type :=
  { enrollment : Enrollment.t; lesson : Lesson.t; status : ProgressStatus }.

(** [progress.status = status]. *)
Definition set_status (status : ProgressStatus) (progress : t) : t :=
  {| enrollment := enrollment progress; lesson := lesson progress;
     status := status |}.

(** The pair a row belongs to. *)
Definition pair_of (progress : t) : string * string :=
  (Enrollment.id (enrollment progress), Lesson.id (lesson progress)).

(** An entity object in the service's hands: the row's values and, once
    the row is stored, its place in the table, which stands for the
    primary key.  [progressRepo.create] makes one without a place. *)
Record entity : Type := { place : option nat; value : t }.
End CourseProgress.

(** ** The repositories *)

(** The five tables, each in the order in which the store returns its
    rows. *)
Record Database : Type :=
  { enrollmentRepo : list Enrollment.t;
    lessonRepo : list Lesson.t;
    quizRepo : list Quiz.t;
    quizAttemptRepo : list QuizAttempt.t;
    progressRepo : list CourseProgress.t }.

(** The calls a service makes on its repositories. *)
Inductive RepositoryCall : Type :=
  | EnrollmentFindOne (id : string)
  | LessonFindOne (id : string)
  | QuizFind (lesson_id : string)
  | QuizAttemptFindOne (user_id quiz_id : string)
  | ProgressFindOne (enrollmentId lessonId : string)
  | ProgressSave (progress : CourseProgress.entity)
  | ProgressCount (enrollmentId : string) (status : option ProgressStatus).

(** The world an [async] method runs in: the database and the calls
    issued so far, oldest first. *)
Record World : Type :=
  { database : Database; issued : list RepositoryCall }.

(** An [async] method returning an [A]. *)
Definition Async (A : Type) : Type := World -> Outcome A * World.

Definition ret {A : Type} (a : A) : Async A :=
  fun w => (Returned a, w).

Definition throw {A : Type} (e : Exception) : Async A :=
  fun w => (Thrown e, w).

(** [const x = await c; k]: an exception of [c] skips [k]; the world is
    the one [c] left, there is no transaction to roll back. *)
Definition bind {A B : Type} (c : Async A) (k : A -> Async B) : Async B :=
  fun w =>
    match c w with
    | (Returned a, w') => k a w'
    | (Thrown e, w') => (Thrown e, w')
    end.

Notation "'await' x ':=' c 'in' k" := (bind c (fun x => k))
  (at level 10, x name, c at level 100, k at level 200).

(** [for (const x of arr) { await body(x) }]. *)
Fixpoint for_of {A : Type} (body : A -> Async unit) (arr : list A) : Async unit :=
  match arr with
  | [] => ret tt
  | x :: rest => await _ := body x in for_of body rest
  end.

(** A read: the call is recorded, the database is left as it is. *)
Definition query {A : Type} (call : RepositoryCall) (read : Database -> A) : Async A :=
  fun w =>
    (Returned (read (database w)),
     {| database := database w; issued := (issued w ++ [call])%list |}).

Module Repository.

(** *** What each call reads from the tables *)

(** [findOne({ where: { id } })]: the first row with this id. *)
Definition select_enrollment (db : Database) (id : string) : option Enrollment.t :=
  snd <$> list_find (fun e => Enrollment.id e = id) (enrollmentRepo db).

Definition select_lesson (db : Database) (id : string) : option Lesson.t :=
  snd <$> list_find (fun l => Lesson.id l = id) (lessonRepo db).

(** [find({ where: { lesson_id } })]: the matching rows, in store order. *)
Definition select_quizzes (db : Database) (lesson_id : string) : list Quiz.t :=
  List.filter (fun q => String.eqb (Quiz.lesson_id q) lesson_id) (quizRepo db).

(** The [where] clause of the attempt lookup. *)
Definition attempt_matches (user_id quiz_id : string) (a : QuizAttempt.t) : Prop :=
  QuizAttempt.user_id a = user_id /\ QuizAttempt.quiz_id a = quiz_id.

#[global] Instance attempt_matches_dec u q a : Decision (attempt_matches u q a).
Proof. unfold attempt_matches. apply _. Defined.

(** [findOne({ where: { user_id, quiz_id } })]: no ordering is asked
    for, the first matching row is the one returned. *)
Definition select_attempt (db : Database) (user_id quiz_id : string)
    : option QuizAttempt.t :=
  snd <$> list_find (attempt_matches user_id quiz_id) (quizAttemptRepo db).

(** The [where] clause on the two relations of a progress row. *)
Definition progress_matches (enrollmentId lessonId : string)
    (p : CourseProgress.t) : Prop :=
  CourseProgress.pair_of p = (enrollmentId, lessonId).

#[global] Instance progress_matches_dec e l p : Decision (progress_matches e l p).
Proof. unfold progress_matches. apply _. Defined.

(** [findOne({ where: { enrollment: { id }, lesson: { id } }, relations })]:
    the first matching row, as an entity that knows its place. *)
Definition select_progress (db : Database) (enrollmentId lessonId : string)
    : option CourseProgress.entity :=
  match list_find (progress_matches enrollmentId lessonId) (progressRepo db) with
  | Some (i, p) => Some {| CourseProgress.place := Some i; CourseProgress.value := p |}
  | None => None
  end.

(** The [where] clause of [count]: the enrollment and, when given, the
    status. *)
Definition counted (enrollmentId : string) (status : option ProgressStatus)
    (p : CourseProgress.t) : bool :=
  String.eqb (Enrollment.id (CourseProgress.enrollment p)) enrollmentId
  && match status with
     | Some s => bool_decide (CourseProgress.status p = s)
     | None => true
     end.

Definition count_progress (db : Database) (enrollmentId : string)
    (status : option ProgressStatus) : nat :=
  length (List.filter (counted enrollmentId status) (progressRepo db)).

(** *** The calls *)

Definition enrollment_findOne (id : string) : Async (option Enrollment.t) :=
  query (EnrollmentFindOne id) (fun db => select_enrollment db id).

Definition lesson_findOne (id : string) : Async (option Lesson.t) :=
  query (LessonFindOne id) (fun db => select_lesson db id).

Definition quiz_find (lesson_id : string) : Async (list Quiz.t) :=
  query (QuizFind lesson_id) (fun db => select_quizzes db lesson_id).

Definition quizAttempt_findOne (user_id quiz_id : string)
    : Async (option QuizAttempt.t) :=
  query (QuizAttemptFindOne user_id quiz_id)
    (fun db => select_attempt db user_id quiz_id).

Definition progress_findOne (enrollmentId lessonId : string)
    : Async (option CourseProgress.entity) :=
  query (ProgressFindOne enrollmentId lessonId)
    (fun db => select_progress db enrollmentId lessonId).

Definition progress_count (enrollmentId : string) (status : option ProgressStatus)
    : Async nat :=
  query (ProgressCount enrollmentId status)
    (fun db => count_progress db enrollmentId status).

(** [create({ enrollment, lesson, status })]: a new entity, not stored. *)
Definition progress_create (enrollment : Enrollment.t) (lesson : Lesson.t)
    (status : ProgressStatus) : CourseProgress.entity :=
  {| CourseProgress.place := None;
     CourseProgress.value :=
       {| CourseProgress.enrollment := enrollment;
          CourseProgress.lesson := lesson;
          CourseProgress.status := status |} |}.

Definition with_progress (db : Database) (rows : list CourseProgress.t) : Database :=
  {| enrollmentRepo := enrollmentRepo db; lessonRepo := lessonRepo db;
     quizRepo := quizRepo db; quizAttemptRepo := quizAttemptRepo db;
     progressRepo := rows |}.

(** Where [save] leaves the table: an entity that has a place
    overwrites the row there; one that has none is inserted as a new
    row. *)
Definition saved_rows (rows : list CourseProgress.t)
    (progress : CourseProgress.entity) : list CourseProgress.t :=
  match CourseProgress.place progress with
  | Some i => <[i := CourseProgress.value progress]> rows
  | None => (rows ++ [CourseProgress.value progress])%list
  end.

(** The entity [save] returns: the one it was given, with its place. *)
Definition saved_entity (rows : list CourseProgress.t)
    (progress : CourseProgress.entity) : CourseProgress.entity :=
  match CourseProgress.place progress with
  | Some _ => progress
  | None =>
      {| CourseProgress.place := Some (length rows);
         CourseProgress.value := CourseProgress.value progress |}
  end.

(** [save(progress)]. *)
Definition progress_save (progress : CourseProgress.entity)
    : Async CourseProgress.entity :=
  fun w =>
    let db := database w in
    (Returned (saved_entity (progressRepo db) progress),
     {| database := with_progress db (saved_rows (progressRepo db) progress);
        issued := (issued w ++ [ProgressSave progress])%list |}).

End Repository.

(** ** CourseProgressService *)

Module CourseProgressService.

Import Repository.

(** Modelled from the spec: the request DTO of [updateProgress]. *)
Record UpdateProgressDto : Type :=
  { enrollmentId : string; lessonId : string; status : ProgressStatus }.

(** Modelled from the spec: the response shape of a progress record
    (enrollment id, lesson id, status, lesson title). *)
Record CourseProgressResponseDto : Type :=
  { response_enrollmentId : string;
    response_lessonId : string;
    response_status : ProgressStatus;
    response_lessonTitle : string }.

(** Modelled from the spec: the response of [getCompletionRate]; the two
    counts are integers, the rate is the Number [Math.round] returns. *)
Record CompletionRateResponseDto : Type :=
  { rate_enrollmentId : string;
    completed : nat;
    total : nat;
    completionRate : JS.Number }.

(** Both relations of the entity are loaded wherever the service calls
    this, so [progress.lesson?.title] is the title. *)
Definition responseToDto (progress : CourseProgress.entity)
    : CourseProgressResponseDto :=
  let p := CourseProgress.value progress in
  {| response_enrollmentId := Enrollment.id (CourseProgress.enrollment p);
     response_lessonId := Lesson.id (CourseProgress.lesson p);
     response_status := CourseProgress.status p;
     response_lessonTitle := Lesson.title (CourseProgress.lesson p) |}.

(** The exception the quiz gate throws for a quiz, named
    [QuizRequirementUnmet] in the specification. *)
Definition QuizRequirementUnmet (quizTitle : string) : Exception :=
  BadRequestException
    ("Cannot complete lesson. You must pass the quiz " ++ JS.dquote
       ++ quizTitle ++ JS.dquote ++ " first.").

(** The body of the loop of [checkQuizRequirements]. *)
Definition checkQuiz (userId : string) (quiz : Quiz.t) : Async unit :=
  await attempt := quizAttempt_findOne userId (Quiz.id quiz) in
  match attempt with
  | None => throw (QuizRequirementUnmet (Quiz.title quiz))
  | Some attempt =>
      if negb (QuizAttempt.passed attempt)
      then throw (QuizRequirementUnmet (Quiz.title quiz))
      else ret tt
  end.

Definition checkQuizRequirements (userId lessonId : string) : Async unit :=
  await quizzes := quiz_find lessonId in
  if (length quizzes =? 0)%nat then ret tt
  else for_of (checkQuiz userId) quizzes.

Definition updateProgress (dto : UpdateProgressDto)
    : Async CourseProgressResponseDto :=
  await enrollment := enrollment_findOne (enrollmentId dto) in
  match enrollment with
  | None => throw (NotFoundException "Enrollment not found")
  | Some enrollment =>
      await lesson := lesson_findOne (lessonId dto) in
      match lesson with
      | None => throw (NotFoundException "Lesson not found")
      | Some lesson =>
          await _ :=
            (if bool_decide (status dto = COMPLETED)
             then checkQuizRequirements (User.id (Enrollment.user enrollment))
                    (lessonId dto)
             else ret tt) in
          await progress := progress_findOne (enrollmentId dto) (lessonId dto) in
          let progress :=
            match progress with
            | None => progress_create enrollment lesson (status dto)
            | Some progress =>
                {| CourseProgress.place := CourseProgress.place progress;
                   CourseProgress.value :=
                     CourseProgress.set_status (status dto)
                       (CourseProgress.value progress) |}
            end in
          await saved := progress_save progress in
          ret (responseToDto saved)
      end
  end.

Definition getCompletionRate (enrollmentId : string)
    : Async CompletionRateResponseDto :=
  await total := progress_count enrollmentId None in
  if (total =? 0)%nat then
    ret {| rate_enrollmentId := enrollmentId; completed := 0; total := 0;
           completionRate := JS.of_Z 0 |}
  else
    await completed := progress_count enrollmentId (Some COMPLETED) in
    ret {| rate_enrollmentId := enrollmentId; completed := completed;
           total := total;
           completionRate :=
             JS.Math_round
               (JS.mul (JS.div (JS.of_Z (Z.of_nat completed))
                               (JS.of_Z (Z.of_nat total)))
                       (JS.of_Z 100)) |}.

End CourseProgressService.

(** ** Vocabulary of the progress properties *)

Module Gate.

Import Repository.

(** The attempt the gate consults for a quiz is the one the lookup
    returns; the quiz is met when that attempt exists and is passed. *)
Definition met (db : Database) (userId : string) (quiz : Quiz.t) : bool :=
  match select_attempt db userId (Quiz.id quiz) with
  | Some attempt => QuizAttempt.passed attempt
  | None => false
  end.

(** The first quiz of a list that is not met. *)
Definition first_unmet (db : Database) (userId : string) (quizzes : list Quiz.t)
    : option Quiz.t :=
  List.find (fun quiz => negb (met db userId quiz)) quizzes.

(** The quizzes up to and including the first one that is not met. *)
Fixpoint checked (db : Database) (userId : string) (quizzes : list Quiz.t)
    : list Quiz.t :=
  match quizzes with
  | [] => []
  | quiz :: rest =>
      quiz :: (if met db userId quiz then checked db userId rest else [])
  end.

(** The user has some passed attempt at the quiz, wherever it stands in
    the table. *)
Definition has_passed (db : Database) (userId quizId : string) : Prop :=
  exists attempt,
    In attempt (quizAttemptRepo db)
    /\ QuizAttempt.user_id attempt = userId
    /\ QuizAttempt.quiz_id attempt = quizId
    /\ QuizAttempt.passed attempt = true.

(** A call is a quiz check when it reads the quiz table or the attempt
    table. *)
Definition is_quiz_check (call : RepositoryCall) : bool :=
  match call with
  | QuizFind _ | QuizAttemptFindOne _ _ => true
  | _ => false
  end.

(** The repository calls of the gate for a user and a lesson. *)
Definition gate_calls (db : Database) (userId lessonId : string)
    : list RepositoryCall :=
  QuizFind lessonId
  :: List.map (fun quiz => QuizAttemptFindOne userId (Quiz.id quiz))
       (checked db userId (select_quizzes db lessonId)).

(** The quiz that blocks an update to a status, if any: only a
    completion can be blocked. *)
Definition blocking_quiz (db : Database) (userId lessonId : string)
    (status : ProgressStatus) : option Quiz.t :=
  if bool_decide (status = COMPLETED)
  then first_unmet db userId (select_quizzes db lessonId)
  else None.

(** The quiz checks of an update to a status. *)
Definition status_calls (db : Database) (userId lessonId : string)
    (status : ProgressStatus) : list RepositoryCall :=
  if bool_decide (status = COMPLETED)
  then gate_calls db userId lessonId
  else [].

(** The entity an update hands to [save]. *)
Definition entity_to_save (db : Database) (enrollment : Enrollment.t)
    (lesson : Lesson.t) (enrollmentId lessonId : string)
    (status : ProgressStatus) : CourseProgress.entity :=
  match select_progress db enrollmentId lessonId with
  | None => progress_create enrollment lesson status
  | Some progress =>
      {| CourseProgress.place := CourseProgress.place progress;
         CourseProgress.value :=
           CourseProgress.set_status status (CourseProgress.value progress) |}
  end.

(** The invariant of the progress table: no two rows belong to the same
    (enrollment, lesson) pair. *)
Definition unique_pairs (rows : list CourseProgress.t) : Prop :=
  NoDup (CourseProgress.pair_of <$> rows).

(** The worlds the service can be in when it alone writes the progress
    table: the table starts empty, [updateProgress] is called any number
    of times, one call after the other, and between the calls anything
    may happen to the other tables. *)
Inductive Reachable : World -> Prop :=
  | reach_fresh (w : World) :
      progressRepo (database w) = [] -> Reachable w
  | reach_update (w : World) (dto : CourseProgressService.UpdateProgressDto) :
      Reachable w -> Reachable (snd (CourseProgressService.updateProgress dto w))
  | reach_elsewhere (w w' : World) :
      Reachable w ->
      progressRepo (database w') = progressRepo (database w) ->
      Reachable w'.

(** The rows of a pair. *)
Definition rows_of_pair (rows : list CourseProgress.t)
    (enrollmentId lessonId : string) : list CourseProgress.t :=
  List.filter (fun p => bool_decide (progress_matches enrollmentId lessonId p)) rows.

(** The world after further calls that leave the database alone. *)
Definition after_calls (w : World) (calls : list RepositoryCall) : World :=
  {| database := database w; issued := (issued w ++ calls)%list |}.

(** The percentage [100 * completed / total] rounded to the nearest
    integer, a half going up, in exact arithmetic. *)
Definition rounded_percentage (completed total : nat) : Z :=
  ((2 * (100 * Z.of_nat completed) + Z.of_nat total) / (2 * Z.of_nat total))%Z.

(** [Math.round((completed / total) * 100)] on Numbers. *)
Definition js_percentage (completed total : nat) : JS.Number :=
  JS.Math_round
    (JS.mul (JS.div (JS.of_Z (Z.of_nat completed)) (JS.of_Z (Z.of_nat total)))
            (JS.of_Z 100)).

(** The two agree on a pair of counts. *)
Definition percentage_agrees (completed total : nat) : bool :=
  bool_decide (js_percentage completed total
               = JS.of_Z (rounded_percentage completed total)).

(** They agree on every pair of counts with [0 < total < bound] and
    [completed <= total]. *)
Definition percentage_agrees_below (bound : nat) : bool :=
  forallb (fun total =>
             forallb (fun completed => percentage_agrees completed total)
               (seq 0 (S total)))
    (seq 1 (bound - 1)).

End Gate.

(** ** Sample data

    Concrete quizzes and databases on which the properties below are
    exercised. *)

Module Sample.

Import QuizValidation.

Definition answer (text : string) (correct : bool) : CreateAnswerDto :=
  {| text := text; correct := correct |}.

Definition bool_true_false : CreateQuestionDto :=
  {| type := BOOL; answers := [answer "True" true; answer "False" false] |}.

Definition bool_maybe_no : CreateQuestionDto :=
  {| type := BOOL; answers := [answer "Maybe" true; answer "No" false] |}.

Definition unique_two_one : CreateQuestionDto :=
  {| type := UNIQUE; answers := [answer "4" true; answer "5" false] |}.

Definition unique_two_none : CreateQuestionDto :=
  {| type := UNIQUE; answers := [answer "4" false; answer "5" false] |}.

Definition unique_no_answers : CreateQuestionDto :=
  {| type := UNIQUE; answers := [] |}.

Definition text_not_correct : CreateQuestionDto :=
  {| type := TEXT; answers := [answer "Paris" false] |}.

(** A quiz whose second and third questions are both invalid. *)
Definition quiz_two_invalid : CreateQuizDto :=
  {| questions := [bool_true_false; unique_two_none; text_not_correct] |}.

(** One user enrolled once, one lesson, two quizzes on it. *)
Definition alice : User.t := {| User.id := "u1" |}.

Definition enrolled : Enrollment.t :=
  {| Enrollment.id := "e1"; Enrollment.user := alice |}.

Definition intro : Lesson.t :=
  {| Lesson.id := "l1"; Lesson.title := "Intro" |}.

Definition quizA : Quiz.t :=
  {| Quiz.id := "qa"; Quiz.title := "Quiz A"; Quiz.lesson_id := "l1" |}.

Definition quizB : Quiz.t :=
  {| Quiz.id := "qb"; Quiz.title := "Quiz B"; Quiz.lesson_id := "l1" |}.

Definition attempt (quiz_id : string) (passed : bool) : QuizAttempt.t :=
  {| QuizAttempt.user_id := "u1"; QuizAttempt.quiz_id := quiz_id;
     QuizAttempt.passed := passed |}.

Definition store (quizzes : list Quiz.t) (attempts : list QuizAttempt.t)
    (rows : list CourseProgress.t) : World :=
  {| database :=
       {| enrollmentRepo := [enrolled]; lessonRepo := [intro];
          quizRepo := quizzes; quizAttemptRepo := attempts;
          progressRepo := rows |};
     issued := [] |}.

(** The user failed quiz A once and passed it on the second attempt. *)
Definition retaken : World :=
  store [quizA] [attempt "qa" false; attempt "qa" true] [].

(** Quiz A is passed, quiz B was never attempted. *)
Definition one_of_two : World :=
  store [quizA; quizB] [attempt "qa" true] [].

(** No quiz on the lesson; the user failed a quiz of some other lesson. *)
Definition no_quiz : World :=
  store [] [attempt "qz" false] [].

(** The lesson is already in progress. *)
Definition in_progress : World :=
  store [] []
    [{| CourseProgress.enrollment := enrolled; CourseProgress.lesson := intro;
        CourseProgress.status := IN_PROGRESS |}].

Definition update (status : ProgressStatus) : CourseProgressService.UpdateProgressDto :=
  {| CourseProgressService.enrollmentId := "e1";
     CourseProgressService.lessonId := "l1";
     CourseProgressService.status := status |}.

(** An enrollment with [total] progress rows, one per lesson, of which
    the first [completed] are completed. *)
Definition progress_rows (completed total : nat) : list CourseProgress.t :=
  List.map
    (fun i =>
       {| CourseProgress.enrollment := enrolled;
          CourseProgress.lesson :=
            {| Lesson.id := "l" ++ JS.Number_toString i; Lesson.title := "Lesson" |};
          CourseProgress.status :=
            if (i <? completed)%nat then COMPLETED else IN_PROGRESS |})
    (seq 0 total).

End Sample.

(** ** The read side of CourseProgressService *)

Module Reporting.

Import Repository CourseProgressService.

(** A read that leaves no record: [RepositoryCall] lists the calls of
    [updateProgress] and [getCompletionRate]; [find] and the counts over
    the whole table are reads of the database like them. *)
Definition read_only {A : Type} (read : Database -> A) : Async A :=
  fun w => (Returned (read (database w)), w).

(** The [where] clause [{ enrollment: { id: enrollmentId } }]. *)
Definition of_enrollment (enrollmentId : string) (progress : CourseProgress.entity)
    : bool :=
  String.eqb
    (Enrollment.id (CourseProgress.enrollment (CourseProgress.value progress)))
    enrollmentId.

(** The rows of the table as entities, each knowing its place. *)
Definition entities (rows : list CourseProgress.t) : list CourseProgress.entity :=
  imap (fun i p => {| CourseProgress.place := Some i; CourseProgress.value := p |})
    rows.

(** [find({ where: { enrollment: { id } }, relations })]: the rows of the
    enrollment, in store order. *)
Definition select_progress_of (db : Database) (enrollmentId : string)
    : list CourseProgress.entity :=
  List.filter (of_enrollment enrollmentId) (entities (progressRepo db)).

Definition progress_find (enrollmentId : string)
    : Async (list CourseProgress.entity) :=
  read_only (fun db => select_progress_of db enrollmentId).

(** [count()] and [count({ where: { status } })] over the whole table. *)
Definition count_all (db : Database) (status : option ProgressStatus) : nat :=
  length
    (List.filter
       (fun p => match status with
                 | Some s => bool_decide (CourseProgress.status p = s)
                 | None => true
                 end)
       (progressRepo db)).

Definition progress_count_all (status : option ProgressStatus) : Async nat :=
  read_only (fun db => count_all db status).

(** [progress.map(this.responseToDto)]: [responseToDto] does not use
    [this]. *)
Definition getCourseProgress (enrollmentId : string)
    : Async (list CourseProgressResponseDto) :=
  await progress := progress_find enrollmentId in
  ret (List.map responseToDto progress).

(** Modelled from the spec: the response of [getAnalytics]; the counts
    are integers, the rate is a Number that is not rounded. *)
Record AnalyticsResponseDto : Type :=
  { totalProgress : nat;
    analytics_completed : nat;
    overallCompletionRate : JS.Number }.

(** [PERCENTAGE_MULTIPLIER] is imported from common/constants, which is
    not among the sources: it is a parameter of the function. *)
Definition getAnalytics (PERCENTAGE_MULTIPLIER : JS.Number)
    : Async AnalyticsResponseDto :=
  await totalProgress := progress_count_all None in
  await completed := progress_count_all (Some COMPLETED) in
  ret {| totalProgress := totalProgress;
         analytics_completed := completed;
         overallCompletionRate :=
           if (0 <? totalProgress)%nat
           then JS.mul (JS.div (JS.of_Z (Z.of_nat completed))
                               (JS.of_Z (Z.of_nat totalProgress)))
                       PERCENTAGE_MULTIPLIER
           else JS.of_Z 0 |}.

End Reporting.

(** ** Vocabulary of the validator properties *)

Module Shape.

Import QuizValidation.

(** The number of answers of a question that are marked correct. *)
Definition marked_correct (question : CreateQuestionDto) : nat :=
  length (List.filter correct (answers question)).

(** The answer texts of a question, lowercased. *)
Definition lowered (question : CreateQuestionDto) : list string :=
  List.map (fun a => JS.toLowerCase (text a)) (answers question).

(** The shape each question type asks for, as a proposition. *)
Definition well_formed (question : CreateQuestionDto) : Prop :=
  match type question with
  | UNIQUE => 2 <= length (answers question) /\ marked_correct question = 1
  | MULTIPLE => 2 <= length (answers question) /\ 1 <= marked_correct question
  | TEXT => exists a, answers question = [a] /\ correct a = true
  | BOOL =>
      length (answers question) = 2
      /\ marked_correct question = 1
      /\ ((In "true" (lowered question) /\ In "false" (lowered question))
          \/ (In "yes" (lowered question) /\ In "no" (lowered question)))
  | Unlisted _ => False
  end.

(** The rule a question of a type breaks when it has answers and is
    not well formed. *)
Definition rule_of_type (t : QuestionType) : StructuralError :=
  match t with
  | UNIQUE => InvalidUniqueQuestion
  | MULTIPLE => InvalidMultipleQuestion
  | TEXT => InvalidTextQuestion
  | BOOL => InvalidBoolQuestion
  | Unlisted _ => UnknownQuestionType
  end.

(** The same answers under another type. *)
Definition retyped (t : QuestionType) (question : CreateQuestionDto)
    : CreateQuestionDto :=
  {| type := t; answers := answers question |}.

(** A message that starts with [Question n:] for the 1-based position
    [n] of a question. *)
Definition names_position (position : nat) (e : Exception) : Prop :=
  exists rule,
    e = BadRequestException
          ("Question " ++ JS.Number_toString position ++ String ":" rule).

End Shape.

(** ** Vocabulary of the reporting properties *)

Module Ledger.

Import Repository CourseProgressService.

(** The response of a row: what [responseToDto] makes of an entity with
    these values, whatever its place. *)
Definition row_response (p : CourseProgress.t) : CourseProgressResponseDto :=
  responseToDto {| CourseProgress.place := None; CourseProgress.value := p |}.

(** The rows of an enrollment, in store order. *)
Definition rows_of_enrollment (rows : list CourseProgress.t) (enrollmentId : string)
    : list CourseProgress.t :=
  List.filter (counted enrollmentId None) rows.

(** The responses with a given status. *)
Definition with_status (s : ProgressStatus) (responses : list CourseProgressResponseDto)
    : list CourseProgressResponseDto :=
  List.filter (fun r => bool_decide (response_status r = s)) responses.

(** At most one attempt per user and quiz in the attempt table. *)
Definition single_attempts (db : Database) : Prop :=
  forall a b,
    In a (quizAttemptRepo db) -> In b (quizAttemptRepo db) ->
    QuizAttempt.user_id a = QuizAttempt.user_id b ->
    QuizAttempt.quiz_id a = QuizAttempt.quiz_id b -> a = b.

End Ledger.

Module MoreSamples.

(** The response to an update of the sample pair. *)
Definition update_response (status : ProgressStatus)
    : CourseProgressService.CourseProgressResponseDto :=
  {| CourseProgressService.response_enrollmentId := "e1";
     CourseProgressService.response_lessonId := "l1";
     CourseProgressService.response_status := status;
     CourseProgressService.response_lessonTitle := "Intro" |}.

(** A second enrollment, of another user. *)
Definition bob_enrolled : Enrollment.t :=
  {| Enrollment.id := "e2"; Enrollment.user := {| User.id := "u2" |} |}.

(** Both enrollments have a row for the lesson. *)
Definition two_enrollments : World :=
  {| database :=
       {| enrollmentRepo := [Sample.enrolled; bob_enrolled];
          lessonRepo := [Sample.intro];
          quizRepo := []; quizAttemptRepo := [];
          progressRepo :=
            [{| CourseProgress.enrollment := bob_enrolled;
                CourseProgress.lesson := Sample.intro;
                CourseProgress.status := COMPLETED |};
             {| CourseProgress.enrollment := Sample.enrolled;
                CourseProgress.lesson := Sample.intro;
                CourseProgress.status := IN_PROGRESS |}] |};
     issued := [] |}.

End MoreSamples.

(** * Properties of the quiz validator *)

Section ValidatorFacts.

Import QuizValidation.

(** The decimal digits of a number hold no colon, so the text after the
    first colon of a question-level message is the rule's own text. *)
Lemma rule_text_digits (d : Decimal.uint) (t : string) :
  rule_text (NilEmpty.string_of_uint d ++ t) = rule_text t.
Proof.
  induction d as [| d IH | d IH | d IH | d IH | d IH | d IH | d IH | d IH | d IH | d IH];
    simpl; auto.
Qed.

Lemma rule_text_questionPrefix (i : nat) (t : string) :
  rule_text (questionPrefix i ++ String ":" t) = t.
Proof.
  unfold questionPrefix, JS.Number_toString.
  simpl. change ("" +:+ ?x) with x.
  rewrite rule_text_digits. simpl. reflexivity.
Qed.

Lemma structural_error_question (i : nat) (t : string) :
  structural_error (BadRequestException (questionPrefix i ++ String ":" t))
  = rule_of_text t.
Proof.
  unfold structural_error. rewrite rule_text_questionPrefix.
  unfold questionPrefix. simpl. reflexivity.
Qed.

(** [includes] is list membership. *)
Lemma includes_In (arr : list string) (x : string) :
  JS.includes arr x = true <-> In x arr.
Proof.
  unfold JS.includes. rewrite existsb_exists. split.
  - intros (y & Hy & Heq). apply String.eqb_eq in Heq. subst. exact Hy.
  - intros H. exists x. split; [exact H | apply String.eqb_refl].
Qed.

(** The loop of [validateQuiz] from any starting index: it stops at the
    first question that throws. *)
Lemma forEach_stops_at_first {A : Type} (f : A -> nat -> Outcome unit)
    (before : list A) (x : A) (after : list A) (index : nat) (e : Exception) :
  (forall i p, before !! i = Some p -> f p (index + i) = Returned tt) ->
  f x (index + length before) = Thrown e ->
  JS.forEach f (before ++ x :: after)%list index = Thrown e.
Proof.
  revert index. induction before as [| b before IH]; intros index Hbefore Hx.
  - simpl in *. rewrite Nat.add_0_r in Hx. rewrite Hx. reflexivity.
  - simpl. specialize (Hbefore 0 b eq_refl) as Hb.
    rewrite Nat.add_0_r in Hb. rewrite Hb.
    apply IH.
    + intros i p Hp. rewrite Nat.add_succ_l, <- Nat.add_succ_r.
      apply Hbefore. exact Hp.
    + rewrite Nat.add_succ_l, <- Nat.add_succ_r. exact Hx.
Qed.

Lemma forEach_all_pass {A : Type} (f : A -> nat -> Outcome unit)
    (arr : list A) (index : nat) :
  (forall i p, arr !! i = Some p -> f p (index + i) = Returned tt) ->
  JS.forEach f arr index = Returned tt.
Proof.
  revert index. induction arr as [| b arr IH]; intros index Hall; simpl.
  - reflexivity.
  - specialize (Hall 0 b eq_refl) as Hb. rewrite Nat.add_0_r in Hb. rewrite Hb.
    apply IH. intros i p Hp. rewrite Nat.add_succ_l, <- Nat.add_succ_r.
    apply Hall. exact Hp.
Qed.

(** The loop agrees with the list of violations taken in question
    order. *)
Lemma forEach_head_violation {A : Type} (f : A -> nat -> Outcome unit)
    (arr : list A) (index : nat) :
  JS.forEach f arr index
  = match head (omap violation (imap (fun i q => f q (index + i)) arr)) with
    | Some e => Thrown e
    | None => Returned tt
    end.
Proof.
  revert index. induction arr as [| b arr IH]; intros index; simpl.
  - reflexivity.
  - rewrite Nat.add_0_r. destruct (f b index) as [[] | e]; simpl.
    + rewrite IH.
      rewrite (imap_ext (fun i q => f q (S index + i))
                 ((fun i q => f q (index + i)) ∘ S) arr); [reflexivity |].
      intros i q _. simpl. f_equal. lia.
    + reflexivity.
Qed.

Lemma hasValidBoolOptions_In (question : CreateQuestionDto) :
  hasValidBoolOptions question = true
  <-> (In "true" (answerTexts question) /\ In "false" (answerTexts question))
      \/ (In "yes" (answerTexts question) /\ In "no" (answerTexts question)).
Proof.
  unfold hasValidBoolOptions. cbv zeta.
  rewrite orb_true_iff, !andb_true_iff, !includes_In. reflexivity.
Qed.

(** What [validateBoolQuestion] does, by its three conditions. *)
Lemma validateBoolQuestion_cases (question : CreateQuestionDto) (i : nat) :
  let conditions :=
    (length (answers question) =? 2)%nat
    && (length (correctAnswers question) =? 1)%nat
    && hasValidBoolOptions question in
  (conditions = true /\
     validateBoolQuestion question (questionPrefix i) = Returned tt)
  \/ (conditions = false /\
      exists e, validateBoolQuestion question (questionPrefix i) = Thrown e
                /\ structural_error e = Some InvalidBoolQuestion).
Proof.
  cbv zeta. unfold validateBoolQuestion.
  destruct (length (answers question) =? 2)%nat; simpl.
  - destruct (length (correctAnswers question) =? 1)%nat; simpl.
    + destruct (hasValidBoolOptions question); simpl.
      * left. split; reflexivity.
      * right. split; [reflexivity |]. eexists. split; [reflexivity |].
        apply structural_error_question.
    + right. split; [reflexivity |]. eexists. split; [reflexivity |].
      apply structural_error_question.
  - right. split; [reflexivity |]. eexists. split; [reflexivity |].
    apply structural_error_question.
Qed.

End ValidatorFacts.

Section ValidatorClaims.

Import QuizValidation.

(** C2.  [validateQuiz] fails with EmptyQuiz on a quiz without
    questions.  On any other quiz it reports exactly the first violation
    in question order: the outcome is the first exception in the list of
    the questions' own outcomes; as soon as a question throws after
    questions that all pass, its exception is the outcome whatever
    follows it, so no later question has a say; and the quiz is accepted
    when every question passes.  Within a question the
    empty-answers rule comes first (it is reported for every type, known
    or not) and the rule of the type applies only to a question that has
    answers. *)
Theorem validateQuiz_first_violation (createQuizDto : CreateQuizDto) :
  (questions createQuizDto = [] ->
     validateQuiz createQuizDto
     = Thrown (BadRequestException "Quiz must have at least one question")
     /\ failure (validateQuiz createQuizDto) = Some EmptyQuiz)
  /\ (questions createQuizDto <> [] ->
      validateQuiz createQuizDto
      = match first_violation (questions createQuizDto) with
        | Some e => Thrown e
        | None => Returned tt
        end)
  /\ (forall before q after e,
        questions createQuizDto = (before ++ q :: after)%list ->
        (forall i p, before !! i = Some p -> validateQuestion p i = Returned tt) ->
        validateQuestion q (length before) = Thrown e ->
        validateQuiz createQuizDto = Thrown e)
  /\ (questions createQuizDto <> [] ->
      (forall i p, questions createQuizDto !! i = Some p ->
                   validateQuestion p i = Returned tt) ->
      validateQuiz createQuizDto = Returned tt)
  /\ (forall q i,
        answers q = [] ->
        failure (validateQuestion q i) = Some EmptyAnswers)
  /\ (forall q i,
        answers q <> [] ->
        validateQuestion q i
        = match type q with
          | UNIQUE => validateUniqueQuestion q (questionPrefix i)
          | MULTIPLE => validateMultipleQuestion q (questionPrefix i)
          | TEXT => validateTextQuestion q (questionPrefix i)
          | BOOL => validateBoolQuestion q (questionPrefix i)
          | Unlisted _ =>
              Thrown (BadRequestException (questionPrefix i ++ ": Invalid question type"))
          end).
Proof.
  split; [| split; [| split; [| split; [| split]]]].
  - intros Hnil. unfold validateQuiz. rewrite Hnil. simpl. split; reflexivity.
  - intros Hne. unfold validateQuiz, first_violation.
    destruct (questions createQuizDto) as [| q qs] eqn:Hqs; [congruence |].
    cbn [length Nat.eqb]. apply (forEach_head_violation validateQuestion (q :: qs) 0).
  - intros before q after e Hqs Hbefore Hq. unfold validateQuiz. rewrite Hqs.
    destruct (length (before ++ q :: after) =? 0)%nat eqn:Hlen.
    + apply Nat.eqb_eq in Hlen. rewrite length_app in Hlen. simpl in Hlen. lia.
    + apply forEach_stops_at_first; assumption.
  - intros Hne Hall. unfold validateQuiz.
    destruct (questions createQuizDto) as [| q qs] eqn:Hqs; [congruence |].
    cbn [length Nat.eqb]. apply forEach_all_pass. exact Hall.
  - intros q i Hnil. unfold validateQuestion. rewrite Hnil. cbn [length Nat.eqb].
    unfold failure. apply structural_error_question.
  - intros q i Hne. unfold validateQuestion.
    destruct (answers q) as [| a l] eqn:Ha; [congruence |]. reflexivity.
Qed.

(** The second question of the sample quiz is the one reported, although
    the third is invalid too. *)
Lemma validateQuiz_first_violation_witness :
  validateQuiz Sample.quiz_two_invalid
  = Thrown (BadRequestException
      "Question 2: Unique choice questions must have exactly one correct answer").
Proof.
  apply (proj1 (proj2 (proj2 (validateQuiz_first_violation Sample.quiz_two_invalid)))
           [Sample.bool_true_false] Sample.unique_two_none [Sample.text_not_correct]).
  - reflexivity.
  - intros [| i] p Hp; [| destruct i; discriminate].
    injection Hp as <-. reflexivity.
  - reflexivity.
Defined.

(** C4.  A BOOL question passes [validateBoolQuestion] exactly when it
    has two answers, one of them marked correct, and the lowercased
    answer texts include both true and false, or both yes and no; any
    other BOOL question fails it with InvalidBoolQuestion.  The same
    three conditions decide whether the question passes [validateQuestion],
    which reports InvalidBoolQuestion for every other BOOL question that
    has an answer.
    The pair True (correct), False passes and the pair Maybe (correct),
    No fails with InvalidBoolQuestion. *)
Theorem validateBoolQuestion_passes_iff (question : CreateQuestionDto)
    (questionIndex : nat) (Htype : type question = BOOL) :
  let lowered := List.map (fun a => JS.toLowerCase (text a)) (answers question) in
  let well_formed :=
    length (answers question) = 2
    /\ length (List.filter correct (answers question)) = 1
    /\ ((In "true" lowered /\ In "false" lowered)
        \/ (In "yes" lowered /\ In "no" lowered)) in
  (validateBoolQuestion question (questionPrefix questionIndex) = Returned tt
     <-> well_formed)
  /\ (~ well_formed ->
      failure (validateBoolQuestion question (questionPrefix questionIndex))
      = Some InvalidBoolQuestion)
  /\ (validateQuestion question questionIndex = Returned tt <-> well_formed)
  /\ (answers question <> [] -> ~ well_formed ->
      failure (validateQuestion question questionIndex) = Some InvalidBoolQuestion)
  /\ validateQuestion Sample.bool_true_false questionIndex = Returned tt
  /\ failure (validateQuestion Sample.bool_maybe_no questionIndex)
     = Some InvalidBoolQuestion.
Proof.
  cbv zeta.
  assert (Hconditions :
    (length (answers question) =? 2)%nat
    && (length (correctAnswers question) =? 1)%nat
    && hasValidBoolOptions question = true
    <-> length (answers question) = 2
        /\ length (List.filter correct (answers question)) = 1
        /\ ((In "true" (answerTexts question) /\ In "false" (answerTexts question))
            \/ (In "yes" (answerTexts question) /\ In "no" (answerTexts question)))).
  { rewrite !andb_true_iff, !Nat.eqb_eq, hasValidBoolOptions_In.
    unfold correctAnswers. tauto. }
  fold (answerTexts question).
  assert (Hbool :
    validateBoolQuestion question (questionPrefix questionIndex) = Returned tt
    <-> length (answers question) = 2
        /\ length (List.filter correct (answers question)) = 1
        /\ ((In "true" (answerTexts question) /\ In "false" (answerTexts question))
            \/ (In "yes" (answerTexts question) /\ In "no" (answerTexts question)))).
  { rewrite <- Hconditions.
    destruct (validateBoolQuestion_cases question questionIndex)
      as [[Hc Hv] | [Hc (e & Hv & _)]]; cbv zeta in Hc; rewrite Hc, Hv.
    - tauto.
    - split; discriminate. }
  assert (Hfails :
    ~ (length (answers question) = 2
       /\ length (List.filter correct (answers question)) = 1
       /\ ((In "true" (answerTexts question) /\ In "false" (answerTexts question))
           \/ (In "yes" (answerTexts question) /\ In "no" (answerTexts question)))) ->
    failure (validateBoolQuestion question (questionPrefix questionIndex))
    = Some InvalidBoolQuestion).
  { intros Hnot.
    destruct (validateBoolQuestion_cases question questionIndex)
      as [[Hc Hv] | [Hc (e & Hv & He)]].
    + exfalso. apply Hnot. apply Hbool. exact Hv.
    + rewrite Hv. exact He. }
  split; [exact Hbool |]. split; [exact Hfails | split; [| split; [| split]]].
  - rewrite <- Hbool. unfold validateQuestion. rewrite Htype.
    destruct (answers question) as [| a l] eqn:Ha; cbn [length Nat.eqb].
    + unfold validateBoolQuestion. rewrite Ha. simpl. split; discriminate.
    + reflexivity.
  - intros Hne Hnot. unfold validateQuestion. rewrite Htype.
    destruct (length (answers question) =? 0)%nat eqn:Hlen.
    + apply Nat.eqb_eq in Hlen.
      destruct (answers question); [congruence | discriminate].
    + apply Hfails. exact Hnot.
  - reflexivity.
  - unfold validateQuestion. cbn -[questionPrefix].
    apply structural_error_question.
Qed.

(** The yes/no pair, in the other order and in capitals, passes. *)
Lemma validateBoolQuestion_passes_iff_witness :
  let question :=
    {| type := BOOL;
       answers := [Sample.answer "NO" true; Sample.answer "Yes" false] |} in
  type question = BOOL /\ validateQuestion question 0 = Returned tt.
Proof.
  intros question. split; [reflexivity |].
  apply (proj2 (proj1 (proj2 (proj2
           (validateBoolQuestion_passes_iff question 0 eq_refl))))).
  split; [reflexivity |]. split; [reflexivity |].
  right. split; [right; left; reflexivity | left; reflexivity].
Defined.

(** C5, as the specification words it, does not hold: a UNIQUE question
    without answers has no answer marked correct, and it is the
    empty-answers guard of [validateQuestion] that rejects it, with
    EmptyAnswers. *)
Lemma unique_without_answers_is_EmptyAnswers :
  type Sample.unique_no_answers = UNIQUE
  /\ length (List.filter correct (answers Sample.unique_no_answers)) <> 1
  /\ validateQuestion Sample.unique_no_answers 0
     = Thrown (BadRequestException "Question 1: Must have at least one answer")
  /\ failure (validateQuestion Sample.unique_no_answers 0) = Some EmptyAnswers
  /\ ~ (forall question questionIndex,
          type question = UNIQUE ->
          length (List.filter correct (answers question)) <> 1 ->
          failure (validateQuestion question questionIndex)
          = Some InvalidUniqueQuestion).
Proof.
  split; [reflexivity |]. split; [simpl; lia |].
  split; [reflexivity |]. split; [reflexivity |].
  intros Hall.
  specialize (Hall Sample.unique_no_answers 0 eq_refl).
  simpl in Hall. discriminate Hall. lia.
Qed.

(** C5, amended.  A UNIQUE question that has at least one answer and
    whose number of answers marked correct is not 1 fails with
    InvalidUniqueQuestion; one without answers fails with EmptyAnswers;
    one with exactly one answer marked correct and at least two answers
    passes. *)
Theorem validateUniqueQuestion_rule (question : CreateQuestionDto)
    (questionIndex : nat) (Htype : type question = UNIQUE) :
  (answers question <> [] ->
   length (List.filter correct (answers question)) <> 1 ->
   failure (validateQuestion question questionIndex) = Some InvalidUniqueQuestion)
  /\ (answers question = [] ->
      failure (validateQuestion question questionIndex) = Some EmptyAnswers)
  /\ (length (List.filter correct (answers question)) = 1 ->
      2 <= length (answers question) ->
      validateQuestion question questionIndex = Returned tt).
Proof.
  unfold validateQuestion. rewrite Htype. split; [| split].
  - intros Hne Hcount.
    destruct (answers question) as [| a l] eqn:Ha; [congruence |].
    cbn [length Nat.eqb]. unfold validateUniqueQuestion, correctAnswers.
    rewrite Ha.
    destruct (length (a :: l) <? 2)%nat.
    + apply structural_error_question.
    + destruct (length (List.filter correct (a :: l)) =? 1)%nat eqn:Hone.
      * apply Nat.eqb_eq in Hone. contradiction.
      * apply structural_error_question.
  - intros Hnil. rewrite Hnil. cbn [length Nat.eqb].
    apply structural_error_question.
  - intros Hone Htwo.
    destruct (answers question) as [| a l] eqn:Ha; [simpl in Htwo; lia |].
    cbn [length Nat.eqb]. unfold validateUniqueQuestion, correctAnswers.
    rewrite Ha.
    destruct (length (a :: l) <? 2)%nat eqn:Hlt.
    + apply Nat.ltb_lt in Hlt. lia.
    + rewrite Hone. reflexivity.
Qed.

(** Two answers, none marked correct: InvalidUniqueQuestion; two answers,
    one marked correct: accepted. *)
Lemma validateUniqueQuestion_rule_witness :
  (type Sample.unique_two_none = UNIQUE
   /\ failure (validateQuestion Sample.unique_two_none 0)
      = Some InvalidUniqueQuestion)
  /\ (type Sample.unique_two_one = UNIQUE
      /\ validateQuestion Sample.unique_two_one 0 = Returned tt).
Proof.
  split; (split; [reflexivity |]).
  - apply (proj1 (validateUniqueQuestion_rule Sample.unique_two_none 0 eq_refl)).
    + discriminate.
    + simpl. lia.
  - apply (proj2 (proj2 (validateUniqueQuestion_rule Sample.unique_two_one 0 eq_refl))).
    + reflexivity.
    + simpl. lia.
Defined.

End ValidatorClaims.

(** * Properties of the progress service *)

Section ProgressFacts.

Import Repository Gate CourseProgressService.

Lemma after_calls_nil (w : World) : after_calls w [] = w.
Proof. destruct w as [db calls]. unfold after_calls. simpl. by rewrite app_nil_r. Qed.

Lemma after_calls_app (w : World) (c1 c2 : list RepositoryCall) :
  after_calls (after_calls w c1) c2 = after_calls w (c1 ++ c2)%list.
Proof. unfold after_calls. simpl. by rewrite app_assoc. Qed.

Lemma database_after_calls (w : World) (calls : list RepositoryCall) :
  database (after_calls w calls) = database w.
Proof. reflexivity. Qed.

Lemma query_run {A : Type} (call : RepositoryCall) (read : Database -> A) (w : World) :
  query call read w = (Returned (read (database w)), after_calls w [call]).
Proof. reflexivity. Qed.

(** The loop of the gate: it throws for the first quiz that is not met
    and has looked up the attempts of the quizzes up to that one. *)
Lemma for_of_checkQuiz_run (userId : string) (quizzes : list Quiz.t) (w : World) :
  for_of (checkQuiz userId) quizzes w
  = (match first_unmet (database w) userId quizzes with
     | Some quiz => Thrown (QuizRequirementUnmet (Quiz.title quiz))
     | None => Returned tt
     end,
     after_calls w
       (List.map (fun quiz => QuizAttemptFindOne userId (Quiz.id quiz))
          (checked (database w) userId quizzes))).
Proof.
  revert w. induction quizzes as [| quiz rest IH]; intros w.
  - simpl. rewrite after_calls_nil. reflexivity.
  - simpl. unfold bind at 1. unfold checkQuiz at 1. unfold bind at 1.
    unfold quizAttempt_findOne. rewrite query_run. unfold met.
    destruct (select_attempt (database w) userId (Quiz.id quiz)) as [attempt |];
      simpl.
    + destruct (QuizAttempt.passed attempt); simpl.
      * rewrite IH. simpl. rewrite after_calls_app. reflexivity.
      * reflexivity.
    + reflexivity.
Qed.

Lemma checkQuizRequirements_run (userId lessonId : string) (w : World) :
  checkQuizRequirements userId lessonId w
  = (match first_unmet (database w) userId (select_quizzes (database w) lessonId) with
     | Some quiz => Thrown (QuizRequirementUnmet (Quiz.title quiz))
     | None => Returned tt
     end,
     after_calls w (gate_calls (database w) userId lessonId)).
Proof.
  unfold checkQuizRequirements, bind, quiz_find, gate_calls. rewrite query_run.
  destruct (select_quizzes (database w) lessonId) as [| quiz rest] eqn:Hq.
  - reflexivity.
  - cbn [length Nat.eqb]. rewrite for_of_checkQuiz_run. simpl database.
    rewrite after_calls_app. reflexivity.
Qed.

(** *** What [updateProgress] does, case by case *)

Lemma updateProgress_no_enrollment (dto : UpdateProgressDto) (w : World) :
  select_enrollment (database w) (enrollmentId dto) = None ->
  updateProgress dto w
  = (Thrown (NotFoundException "Enrollment not found"),
     after_calls w [EnrollmentFindOne (enrollmentId dto)]).
Proof.
  intros He. unfold updateProgress, bind, enrollment_findOne.
  rewrite query_run, He. reflexivity.
Qed.

Lemma updateProgress_no_lesson (dto : UpdateProgressDto) (w : World)
    (enrollment : Enrollment.t) :
  select_enrollment (database w) (enrollmentId dto) = Some enrollment ->
  select_lesson (database w) (lessonId dto) = None ->
  updateProgress dto w
  = (Thrown (NotFoundException "Lesson not found"),
     after_calls w [EnrollmentFindOne (enrollmentId dto);
                    LessonFindOne (lessonId dto)]).
Proof.
  intros He Hl. unfold updateProgress, bind, enrollment_findOne, lesson_findOne.
  rewrite query_run, He. rewrite query_run, database_after_calls, Hl.
  rewrite after_calls_app. reflexivity.
Qed.

Lemma updateProgress_found (dto : UpdateProgressDto) (w : World)
    (enrollment : Enrollment.t) (lesson : Lesson.t) :
  select_enrollment (database w) (enrollmentId dto) = Some enrollment ->
  select_lesson (database w) (lessonId dto) = Some lesson ->
  let db := database w in
  let userId := User.id (Enrollment.user enrollment) in
  let calls :=
    ([EnrollmentFindOne (enrollmentId dto); LessonFindOne (lessonId dto)]
     ++ status_calls db userId (lessonId dto) (status dto))%list in
  updateProgress dto w
  = match blocking_quiz db userId (lessonId dto) (status dto) with
    | Some quiz =>
        (Thrown (QuizRequirementUnmet (Quiz.title quiz)), after_calls w calls)
    | None =>
        let progress :=
          entity_to_save db enrollment lesson (enrollmentId dto) (lessonId dto)
            (status dto) in
        (Returned (responseToDto (saved_entity (progressRepo db) progress)),
         {| database := with_progress db (saved_rows (progressRepo db) progress);
            issued :=
              (issued w
               ++ (calls ++ [ProgressFindOne (enrollmentId dto) (lessonId dto);
                             ProgressSave progress]))%list |})
    end.
Proof.
  intros He Hl. cbv zeta.
  unfold updateProgress, bind at 1, enrollment_findOne.
  rewrite query_run, He.
  unfold bind at 1, lesson_findOne. rewrite query_run, database_after_calls, Hl.
  unfold bind at 1, blocking_quiz, status_calls.
  destruct (bool_decide (status dto = COMPLETED)).
  - rewrite checkQuizRequirements_run, !database_after_calls.
    destruct (first_unmet (database w) (User.id (Enrollment.user enrollment))
                (select_quizzes (database w) (lessonId dto))) as [quiz |].
    + rewrite !after_calls_app. reflexivity.
    + unfold bind, progress_findOne. rewrite query_run.
      unfold progress_save, entity_to_save, after_calls. simpl.
      rewrite <- !app_assoc. reflexivity.
  - unfold ret at 1. unfold bind, progress_findOne. rewrite query_run.
    unfold progress_save, entity_to_save, after_calls. simpl.
    rewrite <- !app_assoc. reflexivity.
Qed.

(** *** The lookups *)

Lemma select_enrollment_id (db : Database) (id : string) (enrollment : Enrollment.t) :
  select_enrollment db id = Some enrollment -> Enrollment.id enrollment = id.
Proof.
  unfold select_enrollment. intros H.
  destruct (list_find _ _) as [[i e] |] eqn:Hfind; [| discriminate].
  injection H as <-. apply list_find_Some in Hfind. tauto.
Qed.

Lemma select_lesson_id (db : Database) (id : string) (lesson : Lesson.t) :
  select_lesson db id = Some lesson -> Lesson.id lesson = id.
Proof.
  unfold select_lesson. intros H.
  destruct (list_find _ _) as [[i l] |] eqn:Hfind; [| discriminate].
  injection H as <-. apply list_find_Some in Hfind. tauto.
Qed.

(** The lookup of a pair in a table to which a row of the pair was
    appended, when the table had none. *)
Lemma list_find_appended (e l : string) (rows : list CourseProgress.t)
    (row : CourseProgress.t) :
  list_find (progress_matches e l) rows = None ->
  progress_matches e l row ->
  list_find (progress_matches e l) (rows ++ [row])%list = Some (length rows, row).
Proof.
  intros Hnone Hrow. rewrite list_find_app_r by exact Hnone.
  simpl. rewrite decide_True by exact Hrow. reflexivity.
Qed.

(** The lookup of a pair in a table whose first row of the pair was
    overwritten by another row of the pair. *)
Lemma list_find_overwritten (e l : string) (rows : list CourseProgress.t)
    (i : nat) (old new : CourseProgress.t) :
  list_find (progress_matches e l) rows = Some (i, old) ->
  progress_matches e l new ->
  list_find (progress_matches e l) (<[i := new]> rows) = Some (i, new).
Proof.
  intros Hfind Hnew. apply list_find_Some in Hfind as (Hi & Hold & Hfirst).
  apply list_find_Some. split; [| split].
  - apply list_lookup_insert_eq. eapply lookup_lt_Some. exact Hi.
  - exact Hnew.
  - intros j y Hj Hlt. rewrite list_lookup_insert_ne in Hj by lia.
    eapply Hfirst; eassumption.
Qed.

(** A table without duplicates has at most one row per pair. *)
Lemma rows_of_pair_le_1 (rows : list CourseProgress.t) (e l : string) :
  unique_pairs rows -> length (rows_of_pair rows e l) <= 1.
Proof.
  unfold unique_pairs, rows_of_pair.
  induction rows as [| row rows IH]; intros Hnodup; simpl; [lia |].
  rewrite fmap_cons in Hnodup. apply NoDup_cons in Hnodup as [Hnotin Hnodup].
  destruct (bool_decide (progress_matches e l row)) eqn:Hrow.
  - apply bool_decide_eq_true in Hrow. simpl.
    assert (Hnone : List.filter
              (fun p => bool_decide (progress_matches e l p)) rows = []).
    { destruct (List.filter _ rows) as [| other rest] eqn:Hfilter; [reflexivity |].
      exfalso. apply Hnotin.
      assert (Hin : In other (List.filter
                (fun p => bool_decide (progress_matches e l p)) rows)).
      { rewrite Hfilter. left. reflexivity. }
      apply filter_In in Hin as [Hin Hother].
      apply bool_decide_eq_true in Hother.
      unfold progress_matches in *. rewrite Hrow, <- Hother.
      apply list_elem_of_fmap. exists other. split; [reflexivity |].
      apply list_elem_of_In. exact Hin. }
    rewrite Hnone. simpl. lia.
  - apply IH. exact Hnodup.
Qed.

(** A row of the pair in the table is counted. *)
Lemma rows_of_pair_ge_1 (rows : list CourseProgress.t) (e l : string)
    (i : nat) (row : CourseProgress.t) :
  rows !! i = Some row -> progress_matches e l row ->
  1 <= length (rows_of_pair rows e l).
Proof.
  intros Hi Hrow. unfold rows_of_pair.
  assert (Hin : In row (List.filter
            (fun p => bool_decide (progress_matches e l p)) rows)).
  { apply filter_In. split.
    - apply list_elem_of_In. eapply list_elem_of_lookup_2. exact Hi.
    - apply bool_decide_eq_true. exact Hrow. }
  destruct (List.filter _ rows); [destruct Hin | simpl; lia].
Qed.

(** The two ways [save] leaves the table, for the entity an update
    hands to it. *)
Lemma entity_to_save_cases (db : Database) (enrollment : Enrollment.t)
    (lesson : Lesson.t) (e l : string) (status : ProgressStatus) :
  let progress := entity_to_save db enrollment lesson e l status in
  (list_find (progress_matches e l) (progressRepo db) = None
   /\ progress = progress_create enrollment lesson status)
  \/ (exists i row,
        list_find (progress_matches e l) (progressRepo db) = Some (i, row)
        /\ progress
           = {| CourseProgress.place := Some i;
                CourseProgress.value := CourseProgress.set_status status row |}).
Proof.
  cbv zeta. unfold entity_to_save, select_progress.
  destruct (list_find (progress_matches e l) (progressRepo db)) as [[i row] |].
  - right. exists i, row. split; reflexivity.
  - left. split; reflexivity.
Qed.

(** Every call of [updateProgress] is one of four cases. *)
Lemma updateProgress_cases (dto : UpdateProgressDto) (w : World) :
  let db := database w in
  (select_enrollment db (enrollmentId dto) = None
   /\ updateProgress dto w
      = (Thrown (NotFoundException "Enrollment not found"),
         after_calls w [EnrollmentFindOne (enrollmentId dto)]))
  \/ (exists enrollment,
        select_enrollment db (enrollmentId dto) = Some enrollment
        /\ select_lesson db (lessonId dto) = None
        /\ updateProgress dto w
           = (Thrown (NotFoundException "Lesson not found"),
              after_calls w [EnrollmentFindOne (enrollmentId dto);
                             LessonFindOne (lessonId dto)]))
  \/ (exists enrollment lesson quiz,
        select_enrollment db (enrollmentId dto) = Some enrollment
        /\ select_lesson db (lessonId dto) = Some lesson
        /\ blocking_quiz db (User.id (Enrollment.user enrollment)) (lessonId dto)
             (status dto) = Some quiz
        /\ updateProgress dto w
           = (Thrown (QuizRequirementUnmet (Quiz.title quiz)),
              after_calls w
                ([EnrollmentFindOne (enrollmentId dto); LessonFindOne (lessonId dto)]
                 ++ status_calls db (User.id (Enrollment.user enrollment))
                      (lessonId dto) (status dto))%list))
  \/ (exists enrollment lesson,
        select_enrollment db (enrollmentId dto) = Some enrollment
        /\ select_lesson db (lessonId dto) = Some lesson
        /\ blocking_quiz db (User.id (Enrollment.user enrollment)) (lessonId dto)
             (status dto) = None
        /\ let progress :=
             entity_to_save db enrollment lesson (enrollmentId dto) (lessonId dto)
               (status dto) in
           updateProgress dto w
           = (Returned (responseToDto (saved_entity (progressRepo db) progress)),
              {| database := with_progress db (saved_rows (progressRepo db) progress);
                 issued :=
                   (issued w
                    ++ (([EnrollmentFindOne (enrollmentId dto);
                          LessonFindOne (lessonId dto)]
                         ++ status_calls db (User.id (Enrollment.user enrollment))
                              (lessonId dto) (status dto))
                        ++ [ProgressFindOne (enrollmentId dto) (lessonId dto);
                            ProgressSave progress]))%list |})).
Proof.
  cbv zeta.
  destruct (select_enrollment (database w) (enrollmentId dto))
    as [enrollment |] eqn:He.
  2: { left. split; [reflexivity |]. apply updateProgress_no_enrollment. exact He. }
  destruct (select_lesson (database w) (lessonId dto)) as [lesson |] eqn:Hl.
  2: { right. left. exists enrollment. split; [reflexivity |].
       split; [reflexivity |]. eapply updateProgress_no_lesson; eassumption. }
  pose proof (updateProgress_found dto w enrollment lesson He Hl) as Hrun.
  cbv zeta in Hrun.
  destruct (blocking_quiz (database w) (User.id (Enrollment.user enrollment))
              (lessonId dto) (status dto)) as [quiz |] eqn:Hgate.
  - right. right. left. exists enrollment, lesson, quiz. auto.
  - right. right. right. exists enrollment, lesson. auto.
Qed.

(** The table after a call: untouched by a call that throws; after a
    call that returns, either the pair had no row and one was appended,
    or its first row was overwritten with the new status. *)
Lemma updateProgress_table (dto : UpdateProgressDto) (w w' : World)
    (outcome : Outcome CourseProgressResponseDto) :
  updateProgress dto w = (outcome, w') ->
  let rows := progressRepo (database w) in
  let matches := progress_matches (enrollmentId dto) (lessonId dto) in
  (exists e, outcome = Thrown e /\ database w' = database w)
  \/ (exists rows' place row,
        outcome
        = Returned (responseToDto {| CourseProgress.place := Some place;
                                     CourseProgress.value := row |})
        /\ database w' = with_progress (database w) rows'
        /\ matches row
        /\ CourseProgress.status row = status dto
        /\ ((list_find matches rows = None
             /\ place = length rows
             /\ rows' = (rows ++ [row])%list)
            \/ (exists old,
                  list_find matches rows = Some (place, old)
                  /\ row = CourseProgress.set_status (status dto) old
                  /\ rows' = <[place := row]> rows))).
Proof.
  intros Hrun. cbv zeta.
  destruct (updateProgress_cases dto w)
    as [(_ & H) | [(en & _ & _ & H) | [(en & le & quiz & _ & _ & _ & H)
                                      | (en & le & He & Hl & Hgate & H)]]];
    cbv zeta in H; rewrite H in Hrun; inversion Hrun; subst; clear Hrun.
  1-3: left; eexists; split; reflexivity.
  right.
  destruct (entity_to_save_cases (database w) en le (enrollmentId dto)
              (lessonId dto) (status dto)) as [[Hnone ->] | (i & old & Hfind & ->)].
  - eexists _, (length (progressRepo (database w))), _.
    split; [reflexivity |]. split; [reflexivity |].
    split; [| split; [reflexivity |]].
    + unfold progress_matches, CourseProgress.pair_of. simpl.
      rewrite (select_enrollment_id _ _ _ He), (select_lesson_id _ _ _ Hl).
      reflexivity.
    + left. split; [exact Hnone |]. split; reflexivity.
  - eexists _, i, _.
    split; [reflexivity |]. split; [reflexivity |].
    pose proof Hfind as Hfound. apply list_find_Some in Hfound as (_ & Hold & _).
    split; [exact Hold |]. split; [reflexivity |].
    right. exists old. split; [exact Hfind |]. split; reflexivity.
Qed.

(** The rows of a pair are none exactly when the lookup finds none. *)
Lemma rows_of_pair_nil (rows : list CourseProgress.t) (e l : string) :
  rows_of_pair rows e l = [] <-> list_find (progress_matches e l) rows = None.
Proof.
  rewrite list_find_None. unfold rows_of_pair.
  induction rows as [| row rows IH]; simpl.
  - split; [constructor | reflexivity].
  - rewrite Forall_cons. destruct (bool_decide (progress_matches e l row)) eqn:Hrow.
    + apply bool_decide_eq_true in Hrow. split; [discriminate | tauto].
    + apply bool_decide_eq_false in Hrow. tauto.
Qed.

(** In a table without duplicates the rows of a pair stand at one place. *)
Lemma unique_pairs_place (rows : list CourseProgress.t) (i j : nat)
    (x y : CourseProgress.t) :
  unique_pairs rows -> rows !! i = Some x -> rows !! j = Some y ->
  CourseProgress.pair_of x = CourseProgress.pair_of y -> i = j.
Proof.
  intros Hnodup Hi Hj Hpair.
  apply (NoDup_lookup _ i j (CourseProgress.pair_of x) Hnodup).
  - rewrite list_lookup_fmap, Hi. reflexivity.
  - rewrite list_lookup_fmap, Hj, Hpair. reflexivity.
Qed.

(** Appending a row of a pair that has none keeps the pairs distinct. *)
Lemma unique_pairs_appended (rows : list CourseProgress.t) (e l : string)
    (row : CourseProgress.t) :
  unique_pairs rows ->
  list_find (progress_matches e l) rows = None ->
  progress_matches e l row ->
  unique_pairs (rows ++ [row])%list.
Proof.
  unfold unique_pairs. intros Hnodup Hnone Hrow.
  rewrite fmap_app. apply NoDup_app. split; [exact Hnodup |]. split.
  - intros pair Hin Hin'. simpl in Hin'. apply list_elem_of_singleton in Hin'.
    apply list_elem_of_fmap in Hin as (other & -> & Hother).
    apply list_find_None in Hnone. rewrite Forall_forall in Hnone.
    apply (Hnone other Hother). unfold progress_matches in *. congruence.
  - simpl. apply NoDup_singleton.
Qed.

(** Overwriting a row by one of the same pair keeps the pairs as they
    are. *)
Lemma pairs_overwritten (rows : list CourseProgress.t) (i : nat)
    (old new : CourseProgress.t) :
  rows !! i = Some old ->
  CourseProgress.pair_of new = CourseProgress.pair_of old ->
  CourseProgress.pair_of <$> <[i := new]> rows = CourseProgress.pair_of <$> rows.
Proof.
  intros Hi Hpair. rewrite list_fmap_insert, Hpair.
  apply list_insert_id. rewrite list_lookup_fmap, Hi. reflexivity.
Qed.

Lemma set_status_same (status : ProgressStatus) (row : CourseProgress.t) :
  CourseProgress.status row = status -> CourseProgress.set_status status row = row.
Proof. destruct row as [en le st]. simpl. intros ->. reflexivity. Qed.

(** The entity a second update with the same request hands to [save]
    is the stored row itself, and saving it changes nothing. *)
Lemma entity_to_save_again (db : Database) (enrollment : Enrollment.t)
    (lesson : Lesson.t) (e l : string) (status : ProgressStatus) :
  select_enrollment db e = Some enrollment ->
  select_lesson db l = Some lesson ->
  let first := entity_to_save db enrollment lesson e l status in
  let rows' := saved_rows (progressRepo db) first in
  let second := entity_to_save (with_progress db rows') enrollment lesson e l status in
  second = saved_entity (progressRepo db) first
  /\ saved_rows rows' second = rows'
  /\ saved_entity rows' second = second
  /\ exists place,
       CourseProgress.place second = Some place
       /\ rows' !! place = Some (CourseProgress.value second)
       /\ progress_matches e l (CourseProgress.value second)
       /\ CourseProgress.status (CourseProgress.value second) = status.
Proof.
  intros He Hl. cbv zeta.
  destruct (entity_to_save_cases db enrollment lesson e l status)
    as [[Hnone ->] | (i & old & Hfind & ->)].
  - set (row := CourseProgress.value (progress_create enrollment lesson status)).
    assert (Hrow : progress_matches e l row).
    { unfold progress_matches, CourseProgress.pair_of. simpl.
      rewrite (select_enrollment_id _ _ _ He), (select_lesson_id _ _ _ Hl).
      reflexivity. }
    assert (Hsecond :
      entity_to_save (with_progress db (progressRepo db ++ [row])%list)
        enrollment lesson e l status
      = {| CourseProgress.place := Some (length (progressRepo db));
           CourseProgress.value := row |}).
    { unfold entity_to_save, select_progress. simpl progressRepo.
      rewrite (list_find_appended e l _ row Hnone Hrow). reflexivity. }
    change (saved_rows (progressRepo db) (progress_create enrollment lesson status))
      with (progressRepo db ++ [row])%list.
    rewrite Hsecond. unfold saved_rows, saved_entity. simpl.
    assert (Hat : (progressRepo db ++ [row])%list !! length (progressRepo db)
                  = Some row).
    { rewrite lookup_app_r by lia. rewrite Nat.sub_diag. reflexivity. }
    split; [reflexivity |].
    split; [apply list_insert_id; exact Hat |].
    split; [reflexivity |].
    exists (length (progressRepo db)). auto.
  - pose proof Hfind as Hfound. apply list_find_Some in Hfound as (Hi & Hold & _).
    set (row := CourseProgress.set_status status old).
    assert (Hrow : progress_matches e l row) by exact Hold.
    assert (Hsecond :
      entity_to_save (with_progress db (<[i := row]> (progressRepo db)))
        enrollment lesson e l status
      = {| CourseProgress.place := Some i; CourseProgress.value := row |}).
    { unfold entity_to_save, select_progress. simpl progressRepo.
      rewrite (list_find_overwritten e l _ i old row Hfind Hrow).
      simpl. rewrite set_status_same by reflexivity. reflexivity. }
    change (saved_rows (progressRepo db)
              {| CourseProgress.place := Some i; CourseProgress.value := row |})
      with (<[i := row]> (progressRepo db)).
    rewrite Hsecond. unfold saved_rows, saved_entity. simpl.
    assert (Hat : <[i := row]> (progressRepo db) !! i = Some row).
    { apply list_lookup_insert_eq. eapply lookup_lt_Some. exact Hi. }
    split; [reflexivity |].
    split; [apply list_insert_id; exact Hat |].
    split; [reflexivity |].
    exists i. auto.
Qed.

(** A second call with the same request has the outcome of the first
    and leaves the database as the first left it. *)
Lemma updateProgress_again (dto : UpdateProgressDto) (w w1 : World)
    (outcome : Outcome CourseProgressResponseDto) :
  updateProgress dto w = (outcome, w1) ->
  exists w2,
    updateProgress dto w1 = (outcome, w2) /\ database w2 = database w1.
Proof.
  intros Hrun.
  destruct (updateProgress_cases dto w)
    as [(He & H) | [(en & He & Hl & H) | [(en & le & quiz & He & Hl & Hgate & H)
                                         | (en & le & He & Hl & Hgate & H)]]];
    cbv zeta in H; rewrite H in Hrun; inversion Hrun; subst; clear Hrun.
  - eexists. split; [apply updateProgress_no_enrollment; exact He | reflexivity].
  - eexists.
    split; [eapply updateProgress_no_lesson; eassumption | reflexivity].
  - pose proof (updateProgress_found dto (after_calls w
        ([EnrollmentFindOne (enrollmentId dto); LessonFindOne (lessonId dto)]
         ++ status_calls (database w) (User.id (Enrollment.user en))
              (lessonId dto) (status dto))%list) en le He Hl) as H2.
    cbv zeta in H2. rewrite database_after_calls, Hgate in H2.
    eexists. split; [exact H2 | reflexivity].
  - set (first := entity_to_save (database w) en le (enrollmentId dto)
                    (lessonId dto) (status dto)) in *.
    set (rows' := saved_rows (progressRepo (database w)) first) in *.
    set (w1 := {| database := with_progress (database w) rows';
                  issued := _ |}).
    pose proof (updateProgress_found dto w1 en le He Hl) as H2.
    cbv zeta in H2.
    change (blocking_quiz (database w1)) with (blocking_quiz (database w)) in H2.
    rewrite Hgate in H2.
    destruct (entity_to_save_again (database w) en le (enrollmentId dto)
                (lessonId dto) (status dto) He Hl) as (Hsecond & Hrows & Hsaved & _).
    cbv zeta in Hsecond, Hrows, Hsaved. fold first in Hsecond, Hrows, Hsaved.
    fold rows' in Hsecond, Hrows, Hsaved.
    change (database w1) with (with_progress (database w) rows') in H2.
    change (progressRepo (with_progress (database w) rows')) with rows' in H2.
    rewrite Hrows, Hsaved, Hsecond in H2.
    eexists. split; [exact H2 | reflexivity].
Qed.

(** The invariant of the progress table is kept by every call. *)
Lemma updateProgress_unique_pairs (dto : UpdateProgressDto) (w w' : World)
    (outcome : Outcome CourseProgressResponseDto) :
  unique_pairs (progressRepo (database w)) ->
  updateProgress dto w = (outcome, w') ->
  unique_pairs (progressRepo (database w')).
Proof.
  intros Hinv Hrun.
  destruct (updateProgress_table dto w w' outcome Hrun)
    as [(e & -> & Hdb)
       | (rows' & place & row & -> & Hdb & Hrow & _ & Hcases)];
    cbv zeta in *; rewrite Hdb; [exact Hinv |].
  simpl progressRepo.
  destruct Hcases as [(Hnone & -> & ->) | (old & Hfind & -> & ->)].
  - eapply unique_pairs_appended; eassumption.
  - apply list_find_Some in Hfind as (Hplace & _ & _).
    unfold unique_pairs.
    rewrite (pairs_overwritten _ place old); [exact Hinv | exact Hplace |].
    reflexivity.
Qed.

(** Hence the invariant holds in every reachable world. *)
Lemma reachable_unique_pairs (w : World) :
  Reachable w -> unique_pairs (progressRepo (database w)).
Proof.
  induction 1 as [w Hempty | w dto Hreach IH | w w' Hreach IH Hsame].
  - rewrite Hempty. apply NoDup_nil_2.
  - eapply (updateProgress_unique_pairs dto w); [exact IH |].
    apply surjective_pairing.
  - rewrite Hsame. exact IH.
Qed.

(** *** The quiz gate *)

Lemma first_unmet_Some (db : Database) (userId : string) (quizzes : list Quiz.t)
    (quiz : Quiz.t) :
  first_unmet db userId quizzes = Some quiz ->
  In quiz quizzes /\ met db userId quiz = false.
Proof.
  unfold first_unmet. intros H. apply find_some in H as [Hin Hmet].
  split; [exact Hin |]. destruct (met db userId quiz); [discriminate | reflexivity].
Qed.

Lemma first_unmet_None (db : Database) (userId : string) (quizzes : list Quiz.t) :
  first_unmet db userId quizzes = None <->
  forall quiz, In quiz quizzes -> met db userId quiz = true.
Proof.
  unfold first_unmet. split.
  - intros H quiz Hin. pose proof (find_none _ _ H quiz Hin) as Hq. simpl in Hq.
    destruct (met db userId quiz); [reflexivity | discriminate].
  - intros H. destruct (List.find _ quizzes) as [quiz |] eqn:Hfind; [| reflexivity].
    apply find_some in Hfind as [Hin Hq]. rewrite (H quiz Hin) in Hq. discriminate.
Qed.

(** A met quiz has a passed attempt. *)
Lemma met_has_passed (db : Database) (userId : string) (quiz : Quiz.t) :
  met db userId quiz = true -> has_passed db userId (Quiz.id quiz).
Proof.
  unfold met, select_attempt. intros H.
  destruct (list_find _ _) as [[i attempt] |] eqn:Hfind; [| discriminate].
  simpl in H. apply list_find_Some in Hfind as (Hi & [Hu Hq] & _).
  exists attempt. split; [| auto].
  apply list_elem_of_In. eapply list_elem_of_lookup_2. exact Hi.
Qed.

(** When the table holds at most one attempt per user and quiz, a quiz
    with a passed attempt is met. *)
Lemma has_passed_met (db : Database) (userId : string) (quiz : Quiz.t) :
  (forall a b,
     In a (quizAttemptRepo db) -> In b (quizAttemptRepo db) ->
     QuizAttempt.user_id a = QuizAttempt.user_id b ->
     QuizAttempt.quiz_id a = QuizAttempt.quiz_id b -> a = b) ->
  has_passed db userId (Quiz.id quiz) -> met db userId quiz = true.
Proof.
  intros Hone (attempt & Hin & Hu & Hq & Hpassed). unfold met, select_attempt.
  destruct (list_find _ _) as [[i found] |] eqn:Hfind.
  - simpl. apply list_find_Some in Hfind as (Hi & [Hu' Hq'] & _).
    assert (found = attempt) as ->; [| exact Hpassed].
    apply Hone; [| exact Hin | congruence | congruence].
    apply list_elem_of_In. eapply list_elem_of_lookup_2. exact Hi.
  - exfalso. apply list_find_None in Hfind. rewrite Forall_forall in Hfind.
    apply (Hfind attempt); [apply list_elem_of_In; exact Hin |].
    split; assumption.
Qed.

(** What the gate of [updateProgress] does.  For an enrollment and a
    lesson that exist, the call throws QuizRequirementUnmet exactly when
    the status is COMPLETED and the attempt looked up for some quiz of
    the lesson is missing or not passed; the quiz named is the first
    such one in the order of the quiz table, the attempts looked up are
    those of the quizzes up to it, and an update to another status reads
    neither the quiz table nor the attempt table. *)
Lemma updateProgress_gate (dto : UpdateProgressDto) (w : World)
    (enrollment : Enrollment.t) (lesson : Lesson.t) :
  select_enrollment (database w) (enrollmentId dto) = Some enrollment ->
  select_lesson (database w) (lessonId dto) = Some lesson ->
  let db := database w in
  let userId := User.id (Enrollment.user enrollment) in
  let quizzes := select_quizzes db (lessonId dto) in
  ((exists quizTitle,
      fst (updateProgress dto w) = Thrown (QuizRequirementUnmet quizTitle))
   <-> status dto = COMPLETED
       /\ exists quiz, In quiz quizzes /\ met db userId quiz = false)
  /\ (status dto = COMPLETED ->
      forall before quiz after,
        quizzes = (before ++ quiz :: after)%list ->
        (forall q, In q before -> met db userId q = true) ->
        met db userId quiz = false ->
        updateProgress dto w
        = (Thrown (QuizRequirementUnmet (Quiz.title quiz)),
           after_calls w
             ([EnrollmentFindOne (enrollmentId dto); LessonFindOne (lessonId dto);
               QuizFind (lessonId dto)]
              ++ List.map (fun q => QuizAttemptFindOne userId (Quiz.id q))
                   (before ++ [quiz]))%list))
  /\ (status dto <> COMPLETED ->
      forall call,
        In call (issued (snd (updateProgress dto w))) ->
        is_quiz_check call = true -> In call (issued w)).
Proof.
  intros He Hl. cbv zeta.
  pose proof (updateProgress_found dto w enrollment lesson He Hl) as Hrun.
  cbv zeta in Hrun. unfold blocking_quiz, status_calls in Hrun.
  split; [| split].
  - rewrite Hrun. destruct (bool_decide (status dto = COMPLETED)) eqn:Hs.
    + apply bool_decide_eq_true in Hs.
      destruct (first_unmet _ _ _) as [quiz |] eqn:Hfirst; simpl.
      * split; [| eauto]. intros _. split; [exact Hs |].
        exists quiz. apply first_unmet_Some. exact Hfirst.
      * split; [intros (t & Ht); discriminate |].
        intros (_ & quiz & Hin & Hmet).
        rewrite first_unmet_None in Hfirst. rewrite (Hfirst quiz Hin) in Hmet.
        discriminate.
    + apply bool_decide_eq_false in Hs. simpl.
      split; [intros (t & Ht); discriminate | tauto].
  - intros Hs before quiz after Hquizzes Hbefore Hquiz.
    rewrite Hrun. rewrite bool_decide_eq_true_2 by exact Hs.
    assert (Hfirst : first_unmet (database w) (User.id (Enrollment.user enrollment))
                       (select_quizzes (database w) (lessonId dto)) = Some quiz
            /\ checked (database w) (User.id (Enrollment.user enrollment))
                 (select_quizzes (database w) (lessonId dto))
               = (before ++ [quiz])%list).
    { rewrite Hquizzes. clear Hquizzes Hrun. unfold first_unmet.
      induction before as [| b before IH]; simpl.
      - rewrite Hquiz. simpl. split; reflexivity.
      - rewrite (Hbefore b) by (left; reflexivity). simpl.
        destruct IH as [IH1 IH2]; [intros q Hq; apply Hbefore; right; exact Hq |].
        rewrite IH1, IH2. split; reflexivity. }
    destruct Hfirst as [-> Hchecked]. unfold gate_calls. rewrite Hchecked.
    reflexivity.
  - intros Hs call Hin Hcheck. rewrite Hrun in Hin.
    rewrite bool_decide_eq_false_2 in Hin by exact Hs. simpl in Hin.
    rewrite !in_app_iff in Hin. simpl in Hin.
    destruct Hin as [Hin | [<- | [<- | [<- | [<- | []]]]]];
      [exact Hin | discriminate..].
Qed.

End ProgressFacts.

Section ProgressClaims.

Import Repository Gate CourseProgressService.

(** C9.  [updateProgress] fails with EnrollmentNotFound whenever the
    enrollment id resolves to no enrollment, whether or not the lesson
    exists, and then the lesson table has not been read; it fails with
    LessonNotFound whenever the enrollment exists and the lesson id
    resolves to no lesson. *)
Theorem updateProgress_not_found (dto : UpdateProgressDto) (w : World) :
  (select_enrollment (database w) (enrollmentId dto) = None ->
     fst (updateProgress dto w) = Thrown (NotFoundException "Enrollment not found")
     /\ issued (snd (updateProgress dto w))
        = (issued w ++ [EnrollmentFindOne (enrollmentId dto)])%list)
  /\ (forall enrollment,
        select_enrollment (database w) (enrollmentId dto) = Some enrollment ->
        select_lesson (database w) (lessonId dto) = None ->
        fst (updateProgress dto w) = Thrown (NotFoundException "Lesson not found")
        /\ issued (snd (updateProgress dto w))
           = (issued w ++ [EnrollmentFindOne (enrollmentId dto);
                           LessonFindOne (lessonId dto)])%list).
Proof.
  split.
  - intros He. rewrite (updateProgress_no_enrollment dto w He). split; reflexivity.
  - intros enrollment He Hl.
    rewrite (updateProgress_no_lesson dto w enrollment He Hl). split; reflexivity.
Qed.

(** Neither the enrollment nor the lesson exists: EnrollmentNotFound. *)
Lemma updateProgress_not_found_witness :
  let dto := {| enrollmentId := "e9"; lessonId := "l9"; status := IN_PROGRESS |} in
  select_enrollment (database Sample.one_of_two) (enrollmentId dto) = None
  /\ select_lesson (database Sample.one_of_two) (lessonId dto) = None
  /\ fst (updateProgress dto Sample.one_of_two)
     = Thrown (NotFoundException "Enrollment not found").
Proof.
  intros dto. split; [reflexivity |]. split; [reflexivity |].
  apply (proj1 (updateProgress_not_found dto Sample.one_of_two)). reflexivity.
Defined.

(** C10.  A call of [updateProgress] that throws leaves the database as
    it found it, the progress table included, and what it throws is one
    of EnrollmentNotFound, LessonNotFound and QuizRequirementUnmet. *)
Theorem updateProgress_failure_writes_nothing (dto : UpdateProgressDto)
    (w w' : World) (e : Exception) :
  updateProgress dto w = (Thrown e, w') ->
  database w' = database w
  /\ progressRepo (database w') = progressRepo (database w)
  /\ (e = NotFoundException "Enrollment not found"
      \/ e = NotFoundException "Lesson not found"
      \/ exists quizTitle, e = QuizRequirementUnmet quizTitle).
Proof.
  intros Hrun.
  destruct (updateProgress_cases dto w)
    as [(_ & H) | [(en & _ & _ & H) | [(en & le & quiz & _ & _ & _ & H)
                                      | (en & le & _ & _ & _ & H)]]];
    cbv zeta in H; rewrite H in Hrun; inversion Hrun; subst.
  - split; [reflexivity |]. split; [reflexivity |]. left. reflexivity.
  - split; [reflexivity |]. split; [reflexivity |]. right. left. reflexivity.
  - split; [reflexivity |]. split; [reflexivity |]. right. right.
    exists (Quiz.title quiz). reflexivity.
Qed.

(** The completion blocked by quiz B writes no progress row. *)
Lemma updateProgress_failure_writes_nothing_witness :
  fst (updateProgress (Sample.update COMPLETED) Sample.one_of_two)
  = Thrown (QuizRequirementUnmet "Quiz B")
  /\ progressRepo (database (snd (updateProgress (Sample.update COMPLETED)
                                    Sample.one_of_two)))
     = [].
Proof.
  split; [reflexivity |].
  apply (updateProgress_failure_writes_nothing (Sample.update COMPLETED)
           Sample.one_of_two
           (snd (updateProgress (Sample.update COMPLETED) Sample.one_of_two))
           (QuizRequirementUnmet "Quiz B")).
  reflexivity.
Defined.

(** C3.  A call of [updateProgress] on a table that has at most one row
    per (enrollment, lesson) pair leaves such a table.  The call returns
    whenever the enrollment and the lesson exist and the status is not
    COMPLETED or every quiz of the lesson is met, and then either the
    pair had no row and one row of the pair is appended, with the
    requested status, or the pair had a row and that row is overwritten
    where it stands by a row of the same enrollment and lesson whose
    status is the requested one.  The same is stated of every call that
    returns; a call that throws leaves the table as it was.  Whatever the
    outcome, every row stays at its place with its pair, so none is
    deleted, and the pair of the call has at most one row afterwards. *)
Theorem updateProgress_keeps_pairs_unique (dto : UpdateProgressDto)
    (w w' : World) (outcome : Outcome CourseProgressResponseDto) :
  unique_pairs (progressRepo (database w)) ->
  updateProgress dto w = (outcome, w') ->
  let rows := progressRepo (database w) in
  let rows' := progressRepo (database w') in
  unique_pairs rows'
  /\ (forall enrollment lesson,
        select_enrollment (database w) (enrollmentId dto) = Some enrollment ->
        select_lesson (database w) (lessonId dto) = Some lesson ->
        (status dto <> COMPLETED
         \/ forall quiz,
              In quiz (select_quizzes (database w) (lessonId dto)) ->
              met (database w) (User.id (Enrollment.user enrollment)) quiz = true) ->
        exists response,
          outcome = Returned response
          /\ response_status response = status dto
          /\ ((rows_of_pair rows (enrollmentId dto) (lessonId dto) = []
               /\ exists row,
                    rows' = (rows ++ [row])%list
                    /\ CourseProgress.pair_of row = (enrollmentId dto, lessonId dto)
                    /\ CourseProgress.status row = status dto)
              \/ (exists i row row',
                    rows !! i = Some row
                    /\ CourseProgress.pair_of row = (enrollmentId dto, lessonId dto)
                    /\ rows' = <[i := row']> rows
                    /\ CourseProgress.status row' = status dto
                    /\ CourseProgress.enrollment row' = CourseProgress.enrollment row
                    /\ CourseProgress.lesson row' = CourseProgress.lesson row)))
  /\ (forall response,
        outcome = Returned response ->
        rows_of_pair rows (enrollmentId dto) (lessonId dto) = [] ->
        exists row,
          rows' = (rows ++ [row])%list
          /\ CourseProgress.pair_of row = (enrollmentId dto, lessonId dto)
          /\ CourseProgress.status row = status dto)
  /\ (forall response i row,
        outcome = Returned response ->
        rows !! i = Some row ->
        CourseProgress.pair_of row = (enrollmentId dto, lessonId dto) ->
        exists row',
          rows' = <[i := row']> rows
          /\ CourseProgress.status row' = status dto
          /\ CourseProgress.enrollment row' = CourseProgress.enrollment row
          /\ CourseProgress.lesson row' = CourseProgress.lesson row)
  /\ (forall e, outcome = Thrown e -> rows' = rows)
  /\ (forall i row,
        rows !! i = Some row ->
        exists row',
          rows' !! i = Some row'
          /\ CourseProgress.pair_of row' = CourseProgress.pair_of row)
  /\ length rows <= length rows'
  /\ length (rows_of_pair rows' (enrollmentId dto) (lessonId dto)) <= 1.
Proof.
  intros Hinv Hrun. cbv zeta.
  assert (Hunique : unique_pairs (progressRepo (database w'))
    /\ (forall response,
          outcome = Returned response ->
          rows_of_pair (progressRepo (database w)) (enrollmentId dto) (lessonId dto)
          = [] ->
          exists row,
            progressRepo (database w') = (progressRepo (database w) ++ [row])%list
            /\ CourseProgress.pair_of row = (enrollmentId dto, lessonId dto)
            /\ CourseProgress.status row = status dto)
    /\ (forall response i row,
          outcome = Returned response ->
          progressRepo (database w) !! i = Some row ->
          CourseProgress.pair_of row = (enrollmentId dto, lessonId dto) ->
          exists row',
            progressRepo (database w') = <[i := row']> (progressRepo (database w))
            /\ CourseProgress.status row' = status dto
            /\ CourseProgress.enrollment row' = CourseProgress.enrollment row
            /\ CourseProgress.lesson row' = CourseProgress.lesson row)
    /\ (forall e, outcome = Thrown e ->
                  progressRepo (database w') = progressRepo (database w))
    /\ (forall i row,
          progressRepo (database w) !! i = Some row ->
          exists row',
            progressRepo (database w') !! i = Some row'
            /\ CourseProgress.pair_of row' = CourseProgress.pair_of row)
    /\ length (progressRepo (database w)) <= length (progressRepo (database w'))).
  { destruct (updateProgress_table dto w w' outcome Hrun)
      as [(e & -> & Hdb)
         | (rows' & place & row & -> & Hdb & Hrow & Hstatus & Hcases)];
      cbv zeta in *; rewrite Hdb.
    - split; [exact Hinv |]. split; [discriminate |]. split; [discriminate |].
      split; [reflexivity |]. split; [eauto |]. lia.
    - simpl progressRepo.
      destruct Hcases as [(Hnone & -> & ->) | (old & Hfind & Hnew & ->)].
      + split; [eapply unique_pairs_appended; eassumption |].
        split; [intros _ _ _; exists row; auto |].
        split.
        { intros _ i other _ Hi Hother. exfalso.
          apply list_find_None in Hnone. rewrite Forall_forall in Hnone.
          apply (Hnone other); [| exact Hother].
          eapply list_elem_of_lookup_2. exact Hi. }
        split; [discriminate |].
        split.
        { intros i other Hi. exists other. split; [| reflexivity].
          apply lookup_app_l_Some. exact Hi. }
        rewrite length_app. simpl. lia.
      + pose proof Hfind as Hfound.
        apply list_find_Some in Hfound as (Hplace & Hold & _).
        assert (Hpair : CourseProgress.pair_of row = CourseProgress.pair_of old).
        { unfold progress_matches in Hrow, Hold. congruence. }
        split.
        { unfold unique_pairs.
          rewrite (pairs_overwritten _ place old); [exact Hinv | exact Hplace |].
          exact Hpair. }
        split.
        { intros _ _ Hnil. apply rows_of_pair_nil in Hnil. congruence. }
        split.
        { intros _ i other _ Hi Hother.
          assert (i = place) as ->.
          { eapply unique_pairs_place; [exact Hinv | exact Hi | exact Hplace |].
            unfold progress_matches in Hold. congruence. }
          assert (other = old) as -> by congruence.
          exists row. split; [reflexivity |]. split; [exact Hstatus |].
          rewrite Hnew. split; reflexivity. }
        split; [discriminate |].
        split.
        { intros i other Hi. destruct (decide (i = place)) as [-> | Hne].
          - exists row. split.
            + apply list_lookup_insert_eq. eapply lookup_lt_Some. exact Hplace.
            + assert (other = old) as -> by congruence. exact Hpair.
          - exists other. split; [| reflexivity].
            rewrite list_lookup_insert_ne by congruence. exact Hi. }
        rewrite length_insert. lia. }
  destruct Hunique as (H1 & H2 & H3 & Hthrown & H4 & H5).
  split; [exact H1 |]. split.
  { intros enrollment lesson He Hl Hok.
    assert (Hgate : blocking_quiz (database w) (User.id (Enrollment.user enrollment))
                      (lessonId dto) (status dto) = None).
    { unfold blocking_quiz. destruct Hok as [Hother | Hmet].
      - rewrite bool_decide_eq_false_2 by exact Hother. reflexivity.
      - destruct (bool_decide (status dto = COMPLETED)); [| reflexivity].
        apply first_unmet_None. exact Hmet. }
    pose proof (updateProgress_found dto w enrollment lesson He Hl) as Hfound.
    cbv zeta in Hfound. rewrite Hgate, Hrun in Hfound.
    injection Hfound as Hout _.
    assert (Hresponse : response_status
                          (responseToDto
                             (saved_entity (progressRepo (database w))
                                (entity_to_save (database w) enrollment lesson
                                   (enrollmentId dto) (lessonId dto) (status dto))))
                        = status dto).
    { destruct (entity_to_save_cases (database w) enrollment lesson
                  (enrollmentId dto) (lessonId dto) (status dto))
        as [[_ Hp] | (i & old & _ & Hp)]; cbv zeta in Hp; rewrite Hp; reflexivity. }
    eexists. split; [exact Hout |]. split; [exact Hresponse |].
    destruct (list_find (progress_matches (enrollmentId dto) (lessonId dto))
                (progressRepo (database w))) as [[i row] |] eqn:Hfind.
    - right. apply list_find_Some in Hfind as (Hi & Hmatch & _).
      destruct (H3 _ i row Hout Hi Hmatch) as (row' & Hrows & Hst & Hen & Hle).
      exists i, row, row'. auto 10.
    - left. apply rows_of_pair_nil in Hfind. split; [exact Hfind |].
      apply (H2 _ Hout Hfind). }
  split; [exact H2 |]. split; [exact H3 |]. split; [exact Hthrown |].
  split; [exact H4 |]. split; [exact H5 |].
  apply rows_of_pair_le_1. exact H1.
Qed.

(** The lesson in progress is completed: the call returns, its one row
    is overwritten and the row stored is completed. *)
Lemma updateProgress_keeps_pairs_unique_witness :
  let after := snd (updateProgress (Sample.update COMPLETED) Sample.in_progress) in
  unique_pairs (progressRepo (database Sample.in_progress))
  /\ unique_pairs (progressRepo (database after))
  /\ length (rows_of_pair (progressRepo (database after)) "e1" "l1") <= 1
  /\ exists row',
       progressRepo (database after) = [row']
       /\ CourseProgress.status row' = COMPLETED
       /\ CourseProgress.pair_of row' = ("e1", "l1").
Proof.
  intros after.
  assert (Hinv : unique_pairs (progressRepo (database Sample.in_progress))).
  { apply NoDup_singleton. }
  split; [exact Hinv |].
  pose proof (updateProgress_keeps_pairs_unique (Sample.update COMPLETED)
                Sample.in_progress after
                (fst (updateProgress (Sample.update COMPLETED) Sample.in_progress))
                Hinv eq_refl) as H.
  cbv zeta in H. destruct H as (H1 & Hreturns & _ & _ & _ & _ & _ & Hone).
  split; [exact H1 |]. split; [exact Hone |].
  destruct (Hreturns Sample.enrolled Sample.intro eq_refl eq_refl
              (or_intror (fun quiz (Hin : In quiz []) => match Hin with end)))
    as (response & _ & _ & [(Hnil & _) | (i & row & row' & Hi & _ & Hrows & Hst & Hen & Hle)]).
  - discriminate Hnil.
  - destruct i as [| i]; [| discriminate Hi]. injection Hi as <-.
    exists row'. split; [exact Hrows |]. split; [exact Hst |].
    unfold CourseProgress.pair_of. rewrite Hen, Hle. reflexivity.
Defined.

(** C7.  On a table with at most one row per pair, a second call of
    [updateProgress] with the same request has the very outcome of the
    first and leaves the database as the first call left it; when the
    calls return, the response carries the requested status and the
    pair has exactly one row after the second call. *)
Theorem updateProgress_idempotent (dto : UpdateProgressDto) (w w1 : World)
    (outcome : Outcome CourseProgressResponseDto) :
  unique_pairs (progressRepo (database w)) ->
  updateProgress dto w = (outcome, w1) ->
  exists w2,
    updateProgress dto w1 = (outcome, w2)
    /\ database w2 = database w1
    /\ (forall response,
          outcome = Returned response ->
          response_status response = status dto
          /\ length (rows_of_pair (progressRepo (database w2))
                       (enrollmentId dto) (lessonId dto)) = 1).
Proof.
  intros Hinv Hrun.
  destruct (updateProgress_again dto w w1 outcome Hrun) as (w2 & Hrun2 & Hdb2).
  exists w2. split; [exact Hrun2 |]. split; [exact Hdb2 |].
  intros response ->. rewrite Hdb2.
  pose proof (updateProgress_unique_pairs dto w w1 _ Hinv Hrun) as Hinv1.
  destruct (updateProgress_table dto w w1 _ Hrun)
    as [(e & Habs & _)
       | (rows' & place & row & Hout & Hdb & Hrow & Hstatus & Hcases)];
    [discriminate |].
  cbv zeta in *. injection Hout as ->. split; [exact Hstatus |].
  apply Nat.le_antisymm; [apply rows_of_pair_le_1; exact Hinv1 |].
  rewrite Hdb. simpl progressRepo.
  apply (rows_of_pair_ge_1 rows' _ _ place row); [| exact Hrow].
  destruct Hcases as [(_ & -> & ->) | (old & Hfind & _ & ->)].
  - rewrite lookup_app_r by lia. rewrite Nat.sub_diag. reflexivity.
  - apply list_find_Some in Hfind as (Hplace & _ & _).
    apply list_lookup_insert_eq. eapply lookup_lt_Some. exact Hplace.
Qed.

(** Two updates to IN_PROGRESS on an empty progress table: one row. *)
Lemma updateProgress_idempotent_witness :
  let first := updateProgress (Sample.update IN_PROGRESS) Sample.no_quiz in
  unique_pairs (progressRepo (database Sample.no_quiz))
  /\ exists w2,
       updateProgress (Sample.update IN_PROGRESS) (snd first) = (fst first, w2)
       /\ length (rows_of_pair (progressRepo (database w2)) "e1" "l1") = 1.
Proof.
  intros first.
  assert (Hinv : unique_pairs (progressRepo (database Sample.no_quiz))).
  { apply NoDup_nil_2. }
  split; [exact Hinv |].
  destruct (updateProgress_idempotent (Sample.update IN_PROGRESS) Sample.no_quiz
              (snd first) (fst first) Hinv eq_refl) as (w2 & Hrun & _ & Hone).
  exists w2. split; [exact Hrun |].
  eapply Hone. reflexivity.
Defined.

(** C6.  When the enrollment and the lesson exist and no quiz is
    attached to the lesson, [updateProgress] to COMPLETED returns a
    response for the pair with status COMPLETED, whatever the attempt
    table holds: the outcome is the same on every other attempt table,
    and no attempt is looked up. *)
Theorem updateProgress_completes_without_quizzes (dto : UpdateProgressDto)
    (w : World) (enrollment : Enrollment.t) (lesson : Lesson.t) :
  select_enrollment (database w) (enrollmentId dto) = Some enrollment ->
  select_lesson (database w) (lessonId dto) = Some lesson ->
  select_quizzes (database w) (lessonId dto) = [] ->
  status dto = COMPLETED ->
  exists response w',
    updateProgress dto w = (Returned response, w')
    /\ response_enrollmentId response = enrollmentId dto
    /\ response_lessonId response = lessonId dto
    /\ response_status response = COMPLETED
    /\ (forall attempts,
          fst (updateProgress dto
                 {| database :=
                      {| enrollmentRepo := enrollmentRepo (database w);
                         lessonRepo := lessonRepo (database w);
                         quizRepo := quizRepo (database w);
                         quizAttemptRepo := attempts;
                         progressRepo := progressRepo (database w) |};
                    issued := issued w |})
          = Returned response)
    /\ (forall userId quizId,
          ~ In (QuizAttemptFindOne userId quizId) (issued w) ->
          ~ In (QuizAttemptFindOne userId quizId) (issued w')).
Proof.
  intros He Hl Hquizzes Hstatus.
  assert (Hgate : forall db',
    select_quizzes db' (lessonId dto) = [] ->
    blocking_quiz db' (User.id (Enrollment.user enrollment)) (lessonId dto)
      (status dto) = None).
  { intros db' Hq. unfold blocking_quiz. rewrite Hq.
    destruct (bool_decide (status dto = COMPLETED)); reflexivity. }
  pose proof (updateProgress_found dto w enrollment lesson He Hl) as Hrun.
  cbv zeta in Hrun. rewrite (Hgate _ Hquizzes) in Hrun.
  eexists _, _. split; [exact Hrun |].
  destruct (entity_to_save_cases (database w) enrollment lesson (enrollmentId dto)
              (lessonId dto) (status dto)) as [[Hnone Hp] | (i & old & Hfind & Hp)];
    cbv zeta in Hp.
  - rewrite Hp. simpl.
    split; [eapply select_enrollment_id; exact He |].
    split; [eapply select_lesson_id; exact Hl |].
    split; [exact Hstatus |]. split.
    + intros attempts.
      set (w2 := {| database := _; issued := issued w |}).
      pose proof (updateProgress_found dto w2 enrollment lesson He Hl) as Hrun2.
      cbv zeta in Hrun2. rewrite (Hgate (database w2) Hquizzes) in Hrun2.
      rewrite Hrun2. simpl. unfold entity_to_save, select_progress.
      simpl progressRepo. rewrite Hnone. reflexivity.
    + intros userId quizId Hnot Hin. apply Hnot.
      unfold status_calls, gate_calls in Hin. rewrite Hquizzes in Hin.
      destruct (bool_decide (status dto = COMPLETED)); simpl in Hin;
        rewrite !in_app_iff in Hin; simpl in Hin;
        intuition (try discriminate; auto).
  - pose proof Hfind as Hfound. apply list_find_Some in Hfound as (_ & Hold & _).
    unfold progress_matches, CourseProgress.pair_of in Hold.
    rewrite Hp. simpl.
    split; [congruence |]. split; [congruence |].
    split; [exact Hstatus |]. split.
    + intros attempts.
      set (w2 := {| database := _; issued := issued w |}).
      pose proof (updateProgress_found dto w2 enrollment lesson He Hl) as Hrun2.
      cbv zeta in Hrun2. rewrite (Hgate (database w2) Hquizzes) in Hrun2.
      rewrite Hrun2. simpl. unfold entity_to_save, select_progress.
      simpl progressRepo. rewrite Hfind. reflexivity.
    + intros userId quizId Hnot Hin. apply Hnot.
      unfold status_calls, gate_calls in Hin. rewrite Hquizzes in Hin.
      destruct (bool_decide (status dto = COMPLETED)); simpl in Hin;
        rewrite !in_app_iff in Hin; simpl in Hin;
        intuition (try discriminate; auto).
Qed.

(** The lesson without quizzes is completed although the user's only
    attempt is a failed one. *)
Lemma updateProgress_completes_without_quizzes_witness :
  exists response w',
    updateProgress (Sample.update COMPLETED) Sample.no_quiz = (Returned response, w')
    /\ response_status response = COMPLETED.
Proof.
  destruct (updateProgress_completes_without_quizzes (Sample.update COMPLETED)
              Sample.no_quiz Sample.enrolled Sample.intro
              eq_refl eq_refl eq_refl eq_refl)
    as (response & w' & Hrun & _ & _ & Hstatus & _).
  exists response, w'. split; assumption.
Defined.

(** C1, evaluated where it fails.  Quiz A is the only quiz of the
    lesson and the user passed it on a second attempt, so every quiz of
    the lesson has a passed attempt of the user; the gate consults the
    attempt the lookup returns, which is the failed first one, and the
    completion is refused with QuizRequirementUnmet for quiz A. *)
Theorem updateProgress_blocked_after_retake :
  let w := Sample.retaken in
  let dto := Sample.update COMPLETED in
  select_enrollment (database w) (enrollmentId dto) = Some Sample.enrolled
  /\ select_lesson (database w) (lessonId dto) = Some Sample.intro
  /\ select_quizzes (database w) (lessonId dto) = [Sample.quizA]
  /\ (forall quiz,
        In quiz (select_quizzes (database w) (lessonId dto)) ->
        has_passed (database w) (User.id (Enrollment.user Sample.enrolled))
          (Quiz.id quiz))
  /\ fst (updateProgress dto w) = Thrown (QuizRequirementUnmet "Quiz A")
  /\ progressRepo (database (snd (updateProgress dto w))) = [].
Proof.
  cbv zeta. split; [reflexivity |]. split; [reflexivity |].
  split; [reflexivity |]. split; [| split; reflexivity].
  intros quiz [<- | []]. exists (Sample.attempt "qa" true).
  split; [right; left; reflexivity |]. repeat split.
Qed.

End ProgressClaims.

(** * Properties of the completion rate *)

Section CompletionRate.

Import Repository Gate CourseProgressService.

Lemma percentage_agrees_below_40 : percentage_agrees_below 40 = true.
Proof. vm_compute. reflexivity. Qed.

Lemma js_percentage_below_40 (completed total : nat) :
  0 < total < 40 -> completed <= total ->
  js_percentage completed total = JS.of_Z (rounded_percentage completed total).
Proof.
  intros Htotal Hcompleted.
  pose proof percentage_agrees_below_40 as Hall.
  unfold percentage_agrees_below in Hall. rewrite forallb_forall in Hall.
  specialize (Hall total). rewrite forallb_forall in Hall.
  assert (Hin : In total (seq 1 (40 - 1))) by (apply in_seq; lia).
  specialize (Hall Hin completed).
  assert (Hin' : In completed (seq 0 (S total))) by (apply in_seq; lia).
  specialize (Hall Hin'). unfold percentage_agrees in Hall.
  apply bool_decide_eq_true in Hall. exact Hall.
Qed.

(** The completed rows of an enrollment are among its rows. *)
Lemma count_completed_le_total (db : Database) (enrollmentId : string) :
  count_progress db enrollmentId (Some COMPLETED)
  <= count_progress db enrollmentId None.
Proof.
  unfold count_progress. induction (progressRepo db) as [| row rows IH]; simpl.
  - lia.
  - destruct (counted enrollmentId (Some COMPLETED) row) eqn:Hc;
      destruct (counted enrollmentId None row) eqn:Ht; simpl; try lia.
    unfold counted in Hc, Ht. apply andb_true_iff in Hc as [Hc _].
    rewrite Hc in Ht. discriminate.
Qed.

Lemma getCompletionRate_run (enrollmentId : string) (w : World) :
  let total_rows := count_progress (database w) enrollmentId None in
  let completed_rows := count_progress (database w) enrollmentId (Some COMPLETED) in
  getCompletionRate enrollmentId w
  = if (total_rows =? 0)%nat
    then (Returned {| rate_enrollmentId := enrollmentId; completed := 0;
                      total := 0; completionRate := JS.of_Z 0 |},
          after_calls w [ProgressCount enrollmentId None])
    else (Returned {| rate_enrollmentId := enrollmentId;
                      completed := completed_rows; total := total_rows;
                      completionRate := js_percentage completed_rows total_rows |},
          after_calls w [ProgressCount enrollmentId None;
                         ProgressCount enrollmentId (Some COMPLETED)]).
Proof.
  cbv zeta. unfold getCompletionRate, bind at 1, progress_count.
  rewrite query_run.
  destruct (count_progress (database w) enrollmentId None =? 0)%nat; [reflexivity |].
  unfold bind. rewrite query_run, database_after_calls, after_calls_app.
  reflexivity.
Qed.

(** C8, as the specification words it, does not hold: for an enrollment
    with 40 progress rows of which 23 are completed the percentage is
    57.5 exactly, which rounds to 58, also when [100 * completed / total]
    is evaluated on Numbers; the service divides first, the quotient
    0.575 is not a binary64 value, the product comes out just below
    57.5, and the rate returned is 57. *)
Lemma completion_rate_23_of_40 :
  let w := Sample.store [] [] (Sample.progress_rows 23 40) in
  fst (getCompletionRate "e1" w)
  = Returned {| rate_enrollmentId := "e1"; completed := 23; total := 40;
                completionRate := JS.of_Z 57 |}
  /\ (2 * (100 * 23) = 115 * 40)%Z
  /\ rounded_percentage 23 40 = 58%Z
  /\ JS.Math_round (JS.div (JS.mul (JS.of_Z 100) (JS.of_Z 23)) (JS.of_Z 40))
     = JS.of_Z 58
  /\ JS.of_Z 57 <> JS.of_Z 58.
Proof.
  cbv zeta. split; [vm_compute; reflexivity |]. split; [reflexivity |].
  split; [reflexivity |]. split; [vm_compute; reflexivity |].
  vm_compute. discriminate.
Qed.

(** C8, amended.  [getCompletionRate] always returns and writes
    nothing.  For an enrollment without progress rows the response is
    all zeros.  Otherwise it carries the two counts and the rate
    [Math.round((completed / total) * 100)], evaluated on Numbers,
    quotient first; for every enrollment with fewer than 40 rows this is
    [100 * completed / total] rounded to the nearest integer, and for 1
    completed row of 3 it is 33. *)
Theorem getCompletionRate_value (enrollmentId : string) (w : World) :
  let total_rows := count_progress (database w) enrollmentId None in
  let completed_rows := count_progress (database w) enrollmentId (Some COMPLETED) in
  exists response w',
    getCompletionRate enrollmentId w = (Returned response, w')
    /\ database w' = database w
    /\ rate_enrollmentId response = enrollmentId
    /\ (total_rows = 0 ->
        completed response = 0 /\ total response = 0
        /\ completionRate response = JS.of_Z 0)
    /\ (total_rows <> 0 ->
        completed response = completed_rows /\ total response = total_rows
        /\ completionRate response
           = JS.Math_round
               (JS.mul (JS.div (JS.of_Z (Z.of_nat completed_rows))
                               (JS.of_Z (Z.of_nat total_rows)))
                       (JS.of_Z 100)))
    /\ (0 < total_rows < 40 ->
        completionRate response
        = JS.of_Z (rounded_percentage completed_rows total_rows))
    /\ (completed_rows = 1 -> total_rows = 3 ->
        completionRate response = JS.of_Z 33).
Proof.
  cbv zeta. rewrite getCompletionRate_run. cbv zeta.
  pose proof (count_completed_le_total (database w) enrollmentId) as Hle.
  destruct (count_progress (database w) enrollmentId None =? 0)%nat eqn:Hzero.
  - apply Nat.eqb_eq in Hzero. eexists _, _. split; [reflexivity |].
    split; [reflexivity |]. split; [reflexivity |]. simpl.
    split; [auto |]. split; [congruence |]. split; lia.
  - apply Nat.eqb_neq in Hzero. eexists _, _. split; [reflexivity |].
    split; [reflexivity |]. split; [reflexivity |]. simpl.
    split; [congruence |]. split; [auto |]. split.
    + intros Hbound. apply js_percentage_below_40; assumption.
    + intros -> ->. vm_compute. reflexivity.
Qed.

(** One completed row of three: 33. *)
Lemma getCompletionRate_value_witness :
  let w := Sample.store [] [] (Sample.progress_rows 1 3) in
  count_progress (database w) "e1" (Some COMPLETED) = 1
  /\ count_progress (database w) "e1" None = 3
  /\ exists response w',
       getCompletionRate "e1" w = (Returned response, w')
       /\ completionRate response = JS.of_Z 33.
Proof.
  intros w. split; [reflexivity |]. split; [reflexivity |].
  destruct (getCompletionRate_value "e1" w)
    as (response & w' & Hrun & _ & _ & _ & _ & _ & Hthird).
  exists response, w'. split; [exact Hrun |].
  apply Hthird; reflexivity.
Defined.

End CompletionRate.


(** * Further properties of the quiz validator *)

Section ValidatorShape.

Import QuizValidation Shape.

Lemma append_assoc (a b c : string) : ((a ++ b) ++ c = a ++ (b ++ c))%string.
Proof.
  induction a as [| x a IH]; [reflexivity |].
  change (String x ((a ++ b) ++ c) = String x (a ++ (b ++ c)))%string.
  rewrite IH. reflexivity.
Qed.

(** The loop returns exactly when the callback returns on every element
    at its index. *)
Lemma forEach_returns_iff {A : Type} (f : A -> nat -> Outcome unit)
    (arr : list A) (index : nat) :
  JS.forEach f arr index = Returned tt
  <-> forall i p, arr !! i = Some p -> f p (index + i) = Returned tt.
Proof.
  split; [| apply forEach_all_pass].
  revert index. induction arr as [| b arr IH]; intros index Hrun i p Hp.
  - discriminate.
  - simpl in Hrun. destruct (f b index) as [[] |] eqn:Hb; [| discriminate].
    destruct i as [| i]; simpl in Hp.
    + injection Hp as <-. rewrite Nat.add_0_r. exact Hb.
    + rewrite Nat.add_succ_r, <- Nat.add_succ_l. apply IH; assumption.
Qed.

(** A question passes exactly when it has the shape of its type; the
    index plays no part. *)
Lemma validateQuestion_well_formed (question : CreateQuestionDto) (i : nat) :
  validateQuestion question i = Returned tt <-> well_formed question.
Proof.
  unfold validateQuestion, well_formed, marked_correct, lowered.
  destruct (length (answers question) =? 0)%nat eqn:Hempty.
  - apply Nat.eqb_eq in Hempty. split; [discriminate |].
    destruct (type question); try lia; try tauto.
    intros (a & Ha & _). rewrite Ha in Hempty. discriminate.
  - apply Nat.eqb_neq in Hempty. destruct (type question) eqn:Htype.
    + (* UNIQUE *)
      unfold validateUniqueQuestion, correctAnswers.
      destruct (length (answers question) <? 2)%nat eqn:Hlen.
      * apply Nat.ltb_lt in Hlen. split; [discriminate | lia].
      * apply Nat.ltb_ge in Hlen.
        destruct (length (List.filter correct (answers question)) =? 1)%nat
          eqn:Hone; simpl.
        -- apply Nat.eqb_eq in Hone. tauto.
        -- apply Nat.eqb_neq in Hone. split; [discriminate | tauto].
    + (* MULTIPLE *)
      unfold validateMultipleQuestion, correctAnswers.
      destruct (length (answers question) <? 2)%nat eqn:Hlen.
      * apply Nat.ltb_lt in Hlen. split; [discriminate | lia].
      * apply Nat.ltb_ge in Hlen.
        destruct (length (List.filter correct (answers question)) =? 0)%nat
          eqn:Hzero.
        -- apply Nat.eqb_eq in Hzero. split; [discriminate | lia].
        -- apply Nat.eqb_neq in Hzero. split; [intros _; lia | reflexivity].
    + (* TEXT *)
      unfold validateTextQuestion.
      destruct (answers question) as [| a [| b l]].
      * split; [discriminate | intros (x & Hx & _); discriminate].
      * destruct (correct a) eqn:Hc; simpl.
        -- split; [intros _; exists a; auto | reflexivity].
        -- split; [discriminate | intros (x & [= <-] & Hx); congruence].
      * split; [discriminate | intros (x & Hx & _); discriminate].
    + (* BOOL *)
      assert (Hconditions :
        (length (answers question) =? 2)%nat
        && (length (correctAnswers question) =? 1)%nat
        && hasValidBoolOptions question = true
        <-> length (answers question) = 2
            /\ length (List.filter correct (answers question)) = 1
            /\ ((In "true" (answerTexts question) /\ In "false" (answerTexts question))
                \/ (In "yes" (answerTexts question) /\ In "no" (answerTexts question)))).
      { rewrite !andb_true_iff, !Nat.eqb_eq, hasValidBoolOptions_In.
        unfold correctAnswers. tauto. }
      fold (answerTexts question). rewrite <- Hconditions.
      destruct (validateBoolQuestion_cases question i)
        as [[Hc Hv] | [Hc (e & Hv & _)]]; cbv zeta in Hc; rewrite Hc, Hv.
      * tauto.
      * split; discriminate.
    + (* any other type *)
      split; [discriminate | tauto].
Qed.

(** Every exception of [validateQuestion] is a Bad Request whose message
    is the question prefix, a colon and the text of one of the rules. *)
Lemma validateQuestion_thrown (question : CreateQuestionDto) (i : nat)
    (e : Exception) :
  validateQuestion question i = Thrown e ->
  exists rule kind,
    e = BadRequestException (questionPrefix i ++ String ":" rule)
    /\ rule_of_text rule = Some kind.
Proof.
  unfold validateQuestion, validateUniqueQuestion, validateMultipleQuestion,
    validateTextQuestion, validateBoolQuestion.
  intros H.
  repeat match type of H with
         | (if ?c then _ else _) = _ => destruct c
         | match ?c with _ => _ end = _ => destruct c
         end;
    try discriminate; injection H as <-; eexists _, _; split; reflexivity.
Qed.

End ValidatorShape.

Section ValidatorLoop.

Import QuizValidation Shape.

(** When the loop throws, it throws what the callback throws on the first
    element it does not return on. *)
Lemma forEach_thrown {A : Type} (f : A -> nat -> Outcome unit)
    (arr : list A) (index : nat) (e : Exception) :
  JS.forEach f arr index = Thrown e ->
  exists i x,
    arr !! i = Some x
    /\ f x (index + i) = Thrown e
    /\ forall j p, j < i -> arr !! j = Some p -> f p (index + j) = Returned tt.
Proof.
  revert index. induction arr as [| b arr IH]; intros index Hrun; [discriminate |].
  simpl in Hrun. destruct (f b index) as [[] | e'] eqn:Hb.
  - destruct (IH _ Hrun) as (i & x & Hi & Hx & Hbefore).
    exists (S i), x. split; [exact Hi |]. split.
    + rewrite Nat.add_succ_r, <- Nat.add_succ_l. exact Hx.
    + intros [| j] p Hlt Hp; simpl in Hp.
      * injection Hp as <-. rewrite Nat.add_0_r. exact Hb.
      * rewrite Nat.add_succ_r, <- Nat.add_succ_l. apply Hbefore; [lia | exact Hp].
  - injection Hrun as <-. exists 0, b. split; [reflexivity |].
    split; [rewrite Nat.add_0_r; exact Hb |]. intros j p Hlt. lia.
Qed.

(** The rule an exception of [validateQuestion] reports: EmptyAnswers for
    a question without answers, the rule of its type otherwise. *)
Lemma validateQuestion_failure (question : CreateQuestionDto) (i : nat)
    (e : Exception) :
  validateQuestion question i = Thrown e ->
  (answers question = [] /\ structural_error e = Some EmptyAnswers)
  \/ (answers question <> [] /\ structural_error e = Some (rule_of_type (type question))).
Proof.
  unfold validateQuestion.
  destruct (length (answers question) =? 0)%nat eqn:Hempty.
  - apply Nat.eqb_eq in Hempty. intros [= <-]. left.
    split; [destruct (answers question); [reflexivity | discriminate] |].
    apply structural_error_question.
  - apply Nat.eqb_neq in Hempty. intros H. right.
    split; [intros Hnil; rewrite Hnil in Hempty; apply Hempty; reflexivity |].
    destruct (type question); simpl;
      unfold validateUniqueQuestion, validateMultipleQuestion,
        validateTextQuestion, validateBoolQuestion in H;
      repeat match type of H with
             | (if ?c then _ else _) = _ => destruct c
             | match ?c with _ => _ end = _ => destruct c
             end;
      try discriminate; injection H as <-; apply structural_error_question.
Qed.

(** The number of elements a filter keeps does not depend on their
    order. *)
Lemma filter_length_Permutation {A : Type} (f : A -> bool) (l l' : list A) :
  Permutation l l' -> length (List.filter f l) = length (List.filter f l').
Proof.
  induction 1 as [| x l l' _ IH | x y l | l l' l'' _ IH1 _ IH2]; simpl.
  - reflexivity.
  - destruct (f x); simpl; congruence.
  - destruct (f x), (f y); reflexivity.
  - congruence.
Qed.

(** The shape of a type does not depend on the order of the answers. *)
Lemma well_formed_Permutation (question question' : CreateQuestionDto) :
  type question = type question' ->
  Permutation (answers question) (answers question') ->
  well_formed question -> well_formed question'.
Proof.
  intros Htype Hperm. unfold well_formed, marked_correct, lowered.
  rewrite <- Htype.
  pose proof (Permutation_length Hperm) as Hlen.
  pose proof (filter_length_Permutation correct _ _ Hperm) as Hcount.
  assert (Hin : forall x,
            In x (List.map (fun a => JS.toLowerCase (text a)) (answers question)) ->
            In x (List.map (fun a => JS.toLowerCase (text a)) (answers question'))).
  { intros x. apply Permutation_in. apply Permutation_map. exact Hperm. }
  destruct (type question).
  - rewrite <- Hlen, <- Hcount. tauto.
  - rewrite <- Hlen, <- Hcount. tauto.
  - intros (a & Ha & Hc). exists a. split; [| exact Hc].
    rewrite Ha in Hperm. apply Permutation_length_1_inv in Hperm. exact Hperm.
  - rewrite <- Hlen, <- Hcount. intros (H2 & H1 & [[Ht Hf] | [Hy Hn]]); auto 10.
  - tauto.
Qed.

(** The quizzes [validateQuiz] accepts, by their list of questions. *)
Lemma validateQuiz_accepts_list (qs : list CreateQuestionDto) :
  validateQuiz {| questions := qs |} = Returned tt
  <-> qs <> [] /\ Forall well_formed qs.
Proof.
  unfold validateQuiz. simpl questions. destruct qs as [| q qs].
  - simpl. split; [discriminate | intros [Hne _]; congruence].
  - cbn [length Nat.eqb]. split.
    + intros Hrun. split; [discriminate |]. apply Forall_lookup. intros i p Hp.
      apply (validateQuestion_well_formed p (0 + i)).
      apply (proj1 (forEach_returns_iff _ _ _) Hrun). exact Hp.
    + intros [_ Hall]. apply forEach_all_pass. intros i p Hp.
      apply validateQuestion_well_formed.
      apply (proj1 (Forall_lookup _ _) Hall i). exact Hp.
Qed.

End ValidatorLoop.

Section ValidatorExtras.

Import QuizValidation Shape.

(** X1.  [validateQuiz] accepts a quiz exactly when it has at least one
    question and every question has the shape of its type: UNIQUE, two
    answers or more and exactly one marked correct; MULTIPLE, two answers
    or more and at least one marked correct; TEXT, a single answer,
    marked correct; BOOL, two answers, one marked correct, texts true and
    false or yes and no; no question of any other type. *)
Theorem validateQuiz_accepts_iff (createQuizDto : CreateQuizDto) :
  validateQuiz createQuizDto = Returned tt
  <-> questions createQuizDto <> []
      /\ Forall well_formed (questions createQuizDto).
Proof.
  unfold validateQuiz.
  destruct (questions createQuizDto) as [| q qs] eqn:Hqs.
  - simpl. split; [discriminate | intros [Hne _]; congruence].
  - cbn [length Nat.eqb]. rewrite forEach_returns_iff, Forall_lookup. split.
    + intros Hall. split; [discriminate |]. intros i p Hp.
      apply (validateQuestion_well_formed p (0 + i)). apply Hall. exact Hp.
    + intros [_ Hall] i p Hp. apply validateQuestion_well_formed.
      apply (Hall i). exact Hp.
Qed.

(** X2.  A MULTIPLE question passes exactly when it has at least two
    answers and at least one of them is marked correct (all of them may
    be); one that has answers and does not pass fails with
    InvalidMultipleQuestion, one without answers with EmptyAnswers. *)
Theorem validateMultipleQuestion_rule (question : CreateQuestionDto)
    (questionIndex : nat) (Htype : type question = MULTIPLE) :
  (validateQuestion question questionIndex = Returned tt
   <-> 2 <= length (answers question)
       /\ 1 <= length (List.filter correct (answers question)))
  /\ (answers question <> [] ->
      ~ (2 <= length (answers question)
         /\ 1 <= length (List.filter correct (answers question))) ->
      failure (validateQuestion question questionIndex)
      = Some InvalidMultipleQuestion)
  /\ (answers question = [] ->
      failure (validateQuestion question questionIndex) = Some EmptyAnswers).
Proof.
  pose proof (validateQuestion_well_formed question questionIndex) as Hiff.
  unfold well_formed, marked_correct in Hiff. rewrite Htype in Hiff.
  split; [exact Hiff |]. split.
  - intros Hne Hnot.
    destruct (validateQuestion question questionIndex) as [[] | e] eqn:Hrun.
    + exfalso. apply Hnot. apply Hiff. reflexivity.
    + destruct (validateQuestion_failure _ _ _ Hrun) as [[Hnil _] | [_ Hrule]];
        [congruence |].
      simpl. rewrite Hrule, Htype. reflexivity.
  - intros Hnil.
    destruct (validateQuestion question questionIndex) as [[] | e] eqn:Hrun.
    + destruct (proj1 Hiff eq_refl) as [Htwo _]. rewrite Hnil in Htwo.
      simpl in Htwo. lia.
    + destruct (validateQuestion_failure _ _ _ Hrun) as [[_ Hrule] | [Hne _]];
        [exact Hrule | congruence].
Qed.

(** Three answers, all marked correct, pass; three answers, none marked
    correct, fail with InvalidMultipleQuestion. *)
Lemma validateMultipleQuestion_rule_witness :
  let all_correct :=
    {| type := MULTIPLE;
       answers := [Sample.answer "a" true; Sample.answer "b" true;
                   Sample.answer "c" true] |} in
  let none_correct :=
    {| type := MULTIPLE;
       answers := [Sample.answer "a" false; Sample.answer "b" false;
                   Sample.answer "c" false] |} in
  validateQuestion all_correct 0 = Returned tt
  /\ failure (validateQuestion none_correct 4) = Some InvalidMultipleQuestion.
Proof.
  intros all_correct none_correct. split.
  - apply (proj1 (validateMultipleQuestion_rule all_correct 0 eq_refl)).
    simpl. lia.
  - apply (proj1 (proj2 (validateMultipleQuestion_rule none_correct 4 eq_refl))).
    + discriminate.
    + simpl. lia.
Defined.

(** X3.  A TEXT question passes exactly when it has a single answer and
    that answer is marked correct; with two answers or more it fails,
    whatever their flags, and every TEXT question that has answers and
    does not pass fails with InvalidTextQuestion. *)
Theorem validateTextQuestion_rule (question : CreateQuestionDto)
    (questionIndex : nat) (Htype : type question = TEXT) :
  (validateQuestion question questionIndex = Returned tt
   <-> exists a, answers question = [a] /\ correct a = true)
  /\ (2 <= length (answers question) ->
      validateQuestion question questionIndex
      = Thrown (BadRequestException
          (questionPrefix questionIndex
           ++ ": Text questions must have exactly one answer")))
  /\ (answers question <> [] ->
      validateQuestion question questionIndex <> Returned tt ->
      failure (validateQuestion question questionIndex) = Some InvalidTextQuestion).
Proof.
  pose proof (validateQuestion_well_formed question questionIndex) as Hiff.
  unfold well_formed in Hiff. rewrite Htype in Hiff.
  split; [exact Hiff |]. split.
  - intros Htwo. unfold validateQuestion, validateTextQuestion. rewrite Htype.
    destruct (answers question) as [| a [| b l]]; simpl in Htwo; try lia.
    reflexivity.
  - intros Hne Hnot.
    destruct (validateQuestion question questionIndex) as [[] | e] eqn:Hrun;
      [congruence |].
    destruct (validateQuestion_failure _ _ _ Hrun) as [[Hnil _] | [_ Hrule]];
      [congruence |].
    simpl. rewrite Hrule, Htype. reflexivity.
Qed.

(** Two answers, both marked correct: rejected. *)
Lemma validateTextQuestion_rule_witness :
  let two :=
    {| type := TEXT;
       answers := [Sample.answer "Paris" true; Sample.answer "paris" true] |} in
  type two = TEXT
  /\ 2 <= length (answers two)
  /\ validateQuestion two 0
     = Thrown (BadRequestException "Question 1: Text questions must have exactly one answer").
Proof.
  intros two. split; [reflexivity |]. split; [simpl; lia |].
  apply (proj1 (proj2 (validateTextQuestion_rule two 0 eq_refl))). simpl. lia.
Defined.

(** X4.  When [validateQuiz] rejects a quiz that has questions, the
    exception is about the first question that is not well formed: the
    questions before it are well formed, the message starts with
    [Question n:] where [n] is its position counted from 1, and the rule
    reported is EmptyAnswers when it has no answers and the rule of its
    type otherwise.  A quiz without questions is rejected with the
    EmptyQuiz message. *)
Theorem validateQuiz_error_names_first (createQuizDto : CreateQuizDto)
    (e : Exception) :
  validateQuiz createQuizDto = Thrown e ->
  (questions createQuizDto = []
   /\ e = BadRequestException "Quiz must have at least one question")
  \/ (exists i question,
        questions createQuizDto !! i = Some question
        /\ ~ well_formed question
        /\ (forall j p, j < i -> questions createQuizDto !! j = Some p ->
                        well_formed p)
        /\ names_position (i + 1) e
        /\ structural_error e
           = Some (match answers question with
                   | [] => EmptyAnswers
                   | _ :: _ => rule_of_type (type question)
                   end)).
Proof.
  unfold validateQuiz.
  destruct (questions createQuizDto) as [| q qs] eqn:Hqs.
  - simpl. intros [= <-]. left. split; reflexivity.
  - cbn [length Nat.eqb]. intros Hrun. right.
    destruct (forEach_thrown _ _ _ _ Hrun) as (i & question & Hi & Hq & Hbefore).
    simpl in Hq. exists i, question. split; [exact Hi |]. split.
    { intros Hwf. apply (validateQuestion_well_formed question i) in Hwf. congruence. }
    split.
    { intros j p Hlt Hp. apply (validateQuestion_well_formed p (0 + j)).
      apply Hbefore; assumption. }
    split.
    { destruct (validateQuestion_thrown _ _ _ Hq) as (rule & kind & -> & _).
      exists rule. unfold questionPrefix. rewrite append_assoc. reflexivity. }
    destruct (validateQuestion_failure _ _ _ Hq) as [[Hnil Hrule] | [Hne Hrule]].
    + rewrite Hnil. exact Hrule.
    + destruct (answers question); [congruence | exact Hrule].
Qed.

(** In the sample quiz the second question is named, and it breaks the
    UNIQUE rule. *)
Lemma validateQuiz_error_names_first_witness :
  exists e,
    validateQuiz Sample.quiz_two_invalid = Thrown e
    /\ exists i question,
         questions Sample.quiz_two_invalid !! i = Some question
         /\ names_position (i + 1) e
         /\ i = 1.
Proof.
  eexists. split; [reflexivity |].
  destruct (validateQuiz_error_names_first Sample.quiz_two_invalid _ eq_refl)
    as [[Hnil _] | (i & question & Hi & Hnot & Hbefore & Hname & _)];
    [discriminate |].
  exists i, question. split; [exact Hi |]. split; [exact Hname |].
  destruct i as [| [| [| i]]]; simpl in Hi; try discriminate.
  - exfalso. injection Hi as <-. apply Hnot. simpl.
    split; [reflexivity |]. split; [reflexivity |].
    left. split; [left; reflexivity | right; left; reflexivity].
  - reflexivity.
  - exfalso. assert (Hwf : well_formed Sample.unique_two_none).
    { apply (Hbefore 1); [lia | reflexivity]. }
    destruct Hwf as [_ Hone]. discriminate Hone.
Defined.

End ValidatorExtras.

Section ValidatorAlgebra.

Import QuizValidation Shape.

(** X5.  Whether a question passes depends neither on its position in
    the quiz nor on the order of its answers: two questions of the same
    type whose answers are a permutation of one another pass or fail
    together, at any positions. *)
Theorem validateQuestion_answer_order (question question' : CreateQuestionDto)
    (i j : nat) :
  type question = type question' ->
  Permutation (answers question) (answers question') ->
  (validateQuestion question i = Returned tt
   <-> validateQuestion question' j = Returned tt).
Proof.
  intros Htype Hperm. rewrite !validateQuestion_well_formed. split.
  - apply well_formed_Permutation; assumption.
  - apply well_formed_Permutation; [symmetry; exact Htype |].
    symmetry. exact Hperm.
Qed.

(** False before True, at another position, passes like True before
    False. *)
Lemma validateQuestion_answer_order_witness :
  let swapped :=
    {| type := BOOL;
       answers := [Sample.answer "False" false; Sample.answer "True" true] |} in
  validateQuestion swapped 7 = Returned tt.
Proof.
  intros swapped.
  apply (proj1 (validateQuestion_answer_order Sample.bool_true_false swapped 0 7
                  eq_refl (perm_swap _ _ []))).
  reflexivity.
Defined.

(** X6.  A BOOL question that passes has exactly the two answers of a
    pair: its lowercased texts are true and false, or yes and no, in
    either order, and exactly one of the two answers is marked correct. *)
Theorem validateBoolQuestion_exact_pair (question : CreateQuestionDto)
    (questionIndex : nat) :
  type question = BOOL ->
  validateQuestion question questionIndex = Returned tt ->
  (lowered question = ["true"; "false"] \/ lowered question = ["false"; "true"]
   \/ lowered question = ["yes"; "no"] \/ lowered question = ["no"; "yes"])
  /\ exists a b, answers question = [a; b] /\ correct a = negb (correct b).
Proof.
  intros Htype Hrun. apply validateQuestion_well_formed in Hrun.
  unfold well_formed in Hrun. rewrite Htype in Hrun.
  destruct Hrun as (Hlen & Hone & Hpair). unfold marked_correct in Hone.
  unfold lowered in *.
  destruct (answers question) as [| a [| b [| c l]]]; try discriminate.
  split.
  - simpl in *.
    destruct Hpair as [[[Ht | [Ht | []]] [Hf | [Hf | []]]]
                      | [[Hy | [Hy | []]] [Hn | [Hn | []]]]];
      rewrite <- ?Ht, <- ?Hf, <- ?Hy, <- ?Hn; auto;
      exfalso; congruence.
  - exists a, b. split; [reflexivity |]. simpl in Hone.
    destruct (correct a), (correct b); simpl in Hone; try discriminate; reflexivity.
Qed.

(** The pair NO (correct), Yes. *)
Lemma validateBoolQuestion_exact_pair_witness :
  let question :=
    {| type := BOOL;
       answers := [Sample.answer "NO" true; Sample.answer "Yes" false] |} in
  lowered question = ["no"; "yes"].
Proof.
  intros question.
  destruct (validateBoolQuestion_exact_pair question 0 eq_refl eq_refl)
    as [[H | [H | [H | H]]] _]; try discriminate H.
  exact H.
Defined.

(** X7.  The shapes are nested: answers that pass as a BOOL question
    pass as a UNIQUE question, and answers that pass as a UNIQUE question
    pass as a MULTIPLE question; answers that pass as a TEXT question pass
    under no other type. *)
Theorem accepted_types_nest (question : CreateQuestionDto) (i : nat) :
  (validateQuestion (retyped BOOL question) i = Returned tt ->
   validateQuestion (retyped UNIQUE question) i = Returned tt)
  /\ (validateQuestion (retyped UNIQUE question) i = Returned tt ->
      validateQuestion (retyped MULTIPLE question) i = Returned tt)
  /\ (validateQuestion (retyped TEXT question) i = Returned tt ->
      forall t, t <> TEXT ->
                validateQuestion (retyped t question) i <> Returned tt).
Proof.
  rewrite !validateQuestion_well_formed. unfold well_formed, marked_correct.
  simpl. split; [| split].
  - intros (Hlen & Hone & _). split; [lia | exact Hone].
  - intros (Hlen & Hone). split; lia.
  - intros (a & Ha & _) t Ht. rewrite validateQuestion_well_formed.
    unfold well_formed, marked_correct. simpl. rewrite Ha.
    destruct t; simpl; try lia; try congruence; tauto.
Qed.

(** The answers True (correct), False pass as BOOL, hence as UNIQUE. *)
Lemma accepted_types_nest_witness :
  validateQuestion (retyped UNIQUE Sample.bool_true_false) 0 = Returned tt.
Proof.
  apply (proj1 (accepted_types_nest Sample.bool_true_false 0)). reflexivity.
Defined.

(** X8.  Acceptance of a quiz is a property of its set of questions:
    the concatenation of two lists of questions, neither empty, is
    accepted exactly when each list is, and a quiz whose questions are
    those of an accepted quiz in another order is accepted. *)
Theorem validateQuiz_concatenation (qs1 qs2 : list CreateQuestionDto) :
  qs1 <> [] -> qs2 <> [] ->
  (validateQuiz {| questions := (qs1 ++ qs2)%list |} = Returned tt
   <-> validateQuiz {| questions := qs1 |} = Returned tt
       /\ validateQuiz {| questions := qs2 |} = Returned tt)
  /\ (forall qs,
        Permutation (qs1 ++ qs2)%list qs ->
        validateQuiz {| questions := (qs1 ++ qs2)%list |} = Returned tt ->
        validateQuiz {| questions := qs |} = Returned tt).
Proof.
  intros Hne1 Hne2. split.
  - rewrite !validateQuiz_accepts_list, Forall_app. split.
    + intros (_ & H1 & H2). auto.
    + intros ((_ & H1) & (_ & H2)). split; [| auto].
      destruct qs1; [congruence | discriminate].
  - intros qs Hperm Hrun. apply validateQuiz_accepts_list in Hrun as [Hne Hall].
    apply validateQuiz_accepts_list. split.
    + intros ->. apply Permutation_nil_r in Hperm. congruence.
    + rewrite <- Hperm. exact Hall.
Qed.

(** Two accepted one-question quizzes give an accepted two-question
    quiz. *)
Lemma validateQuiz_concatenation_witness :
  validateQuiz {| questions := [Sample.bool_true_false; Sample.unique_two_one] |}
  = Returned tt.
Proof.
  apply (proj1 (validateQuiz_concatenation [Sample.bool_true_false]
                  [Sample.unique_two_one] ltac:(discriminate) ltac:(discriminate))).
  split; reflexivity.
Defined.

End ValidatorAlgebra.

(** * Further properties of the progress service *)

Section ReportingFacts.

Import Repository Gate CourseProgressService Reporting Ledger.

Lemma responseToDto_value (progress : CourseProgress.entity) :
  responseToDto progress = row_response (CourseProgress.value progress).
Proof. reflexivity. Qed.

(** The entities [find] returns carry the rows of the enrollment, in
    store order. *)
Lemma select_progress_of_values (db : Database) (enrollmentId : string) :
  List.map CourseProgress.value (select_progress_of db enrollmentId)
  = rows_of_enrollment (progressRepo db) enrollmentId.
Proof.
  unfold select_progress_of, entities, rows_of_enrollment.
  generalize (fun i : nat => i) as g.
  assert (H : forall (g : nat -> nat) rows,
    List.map CourseProgress.value
      (List.filter (of_enrollment enrollmentId)
         (imap (fun i p => {| CourseProgress.place := Some (g i);
                              CourseProgress.value := p |}) rows))
    = List.filter (counted enrollmentId None) rows).
  { intros g rows. revert g. induction rows as [| row rows IH]; intros g; simpl.
    - reflexivity.
    - unfold of_enrollment at 1, counted at 1. simpl.
      rewrite andb_true_r.
      destruct (String.eqb _ enrollmentId); simpl.
      + f_equal. apply (IH (g ∘ S)).
      + apply (IH (g ∘ S)). }
  intros g. apply (H (fun i => i)).
Qed.

Lemma getCourseProgress_run (enrollmentId : string) (w : World) :
  getCourseProgress enrollmentId w
  = (Returned (List.map row_response
                 (rows_of_enrollment (progressRepo (database w)) enrollmentId)),
     w).
Proof.
  unfold getCourseProgress, bind, progress_find, read_only, ret.
  rewrite <- select_progress_of_values, map_map. reflexivity.
Qed.

(** Overwriting a row a filter rejects by another it rejects changes
    nothing for the filter. *)
Lemma filter_insert_rejected {A : Type} (f : A -> bool) (l : list A) (i : nat)
    (old new : A) :
  l !! i = Some old -> f old = false -> f new = false ->
  List.filter f (<[i := new]> l) = List.filter f l.
Proof.
  revert i. induction l as [| x l IH]; intros [| i] Hi Hold Hnew; simpl in *;
    try discriminate.
  - injection Hi as ->. rewrite Hold, Hnew. reflexivity.
  - rewrite (IH i Hi Hold Hnew). reflexivity.
Qed.

(** Overwriting a row by one the filter treats alike keeps the number of
    rows the filter keeps. *)
Lemma filter_length_insert {A : Type} (f : A -> bool) (l : list A) (i : nat)
    (old new : A) :
  l !! i = Some old -> f new = f old ->
  length (List.filter f (<[i := new]> l)) = length (List.filter f l).
Proof.
  revert i. induction l as [| x l IH]; intros [| i] Hi Hsame; simpl in *;
    try discriminate.
  - injection Hi as ->. rewrite Hsame. destruct (f old); reflexivity.
  - destruct (f x); simpl; rewrite (IH i Hi Hsame); reflexivity.
Qed.

(** A row is counted for the enrollment of its pair and for no other. *)
Lemma counted_pair (enrollmentId lessonId other : string) (row : CourseProgress.t) :
  progress_matches enrollmentId lessonId row ->
  counted other None row = bool_decide (enrollmentId = other).
Proof.
  unfold progress_matches, CourseProgress.pair_of, counted. intros [= He _].
  rewrite He, andb_true_r. destruct (String.eqb_spec enrollmentId other).
  - rewrite bool_decide_eq_true_2 by assumption. reflexivity.
  - rewrite bool_decide_eq_false_2 by assumption. reflexivity.
Qed.

(** The quizzes of a lesson are the rows of the quiz table with its id. *)
Lemma select_quizzes_In (db : Database) (lessonId : string) (quiz : Quiz.t) :
  In quiz (select_quizzes db lessonId)
  <-> In quiz (quizRepo db) /\ Quiz.lesson_id quiz = lessonId.
Proof.
  unfold select_quizzes. rewrite filter_In, String.eqb_eq. reflexivity.
Qed.

(** A call that returns found the enrollment and the lesson, and no quiz
    blocked it. *)
Lemma updateProgress_returned (dto : UpdateProgressDto) (w w' : World)
    (response : CourseProgressResponseDto) :
  updateProgress dto w = (Returned response, w') ->
  exists enrollment lesson,
    select_enrollment (database w) (enrollmentId dto) = Some enrollment
    /\ select_lesson (database w) (lessonId dto) = Some lesson
    /\ blocking_quiz (database w) (User.id (Enrollment.user enrollment))
         (lessonId dto) (status dto) = None.
Proof.
  intros Hrun.
  destruct (updateProgress_cases dto w)
    as [(_ & H) | [(en & _ & _ & H) | [(en & le & quiz & _ & _ & _ & H)
                                      | (en & le & He & Hl & Hgate & H)]]];
    cbv zeta in H; try (rewrite H in Hrun; discriminate).
  exists en, le. auto.
Qed.

(** The rows of an enrollment after a call for another enrollment are
    the rows it had. *)
Lemma updateProgress_other_rows (dto : UpdateProgressDto) (w w' : World)
    (outcome : Outcome CourseProgressResponseDto) (other : string) :
  updateProgress dto w = (outcome, w') ->
  other <> enrollmentId dto ->
  rows_of_enrollment (progressRepo (database w')) other
  = rows_of_enrollment (progressRepo (database w)) other.
Proof.
  intros Hrun Hother.
  destruct (updateProgress_table dto w w' outcome Hrun)
    as [(e & _ & Hdb)
       | (rows' & place & row & _ & Hdb & Hrow & _ & Hcases)];
    cbv zeta in *; rewrite Hdb; [reflexivity |].
  simpl progressRepo. unfold rows_of_enrollment.
  assert (Hrejected : counted other None row = false).
  { rewrite (counted_pair _ _ other row Hrow).
    apply bool_decide_eq_false_2. congruence. }
  destruct Hcases as [(_ & _ & ->) | (old & Hfind & _ & ->)].
  - rewrite List.filter_app. simpl. rewrite Hrejected. apply app_nil_r.
  - apply list_find_Some in Hfind as (Hplace & Hold & _).
    apply (filter_insert_rejected _ _ place old); [exact Hplace | | exact Hrejected].
    rewrite (counted_pair _ _ other old Hold).
    apply bool_decide_eq_false_2. congruence.
Qed.

(** The responses with a status are those of the rows the count with
    that status counts. *)
Lemma with_status_length (rows : list CourseProgress.t) (enrollmentId : string)
    (s : ProgressStatus) :
  length (with_status s (List.map row_response (rows_of_enrollment rows enrollmentId)))
  = length (List.filter (counted enrollmentId (Some s)) rows).
Proof.
  assert (Hcounted : forall p,
            counted enrollmentId (Some s) p
            = counted enrollmentId None p
              && bool_decide (CourseProgress.status p = s)).
  { intros p. unfold counted. rewrite andb_true_r. reflexivity. }
  unfold with_status, rows_of_enrollment.
  induction rows as [| row rows IH]; simpl; [reflexivity |].
  rewrite Hcounted. destruct (counted enrollmentId None row); simpl; [| exact IH].
  change (response_status (row_response row)) with (CourseProgress.status row).
  destruct (bool_decide (CourseProgress.status row = s)); simpl; rewrite IH;
    reflexivity.
Qed.

(** In a table without duplicate pairs the rows of an enrollment are of
    distinct lessons. *)
Lemma rows_of_enrollment_lessons (rows : list CourseProgress.t)
    (enrollmentId : string) :
  unique_pairs rows ->
  NoDup (List.map (fun p => Lesson.id (CourseProgress.lesson p))
           (rows_of_enrollment rows enrollmentId)).
Proof.
  unfold unique_pairs, rows_of_enrollment.
  induction rows as [| row rows IH]; intros Hnodup; simpl; [constructor |].
  rewrite fmap_cons in Hnodup. apply NoDup_cons in Hnodup as [Hnotin Hnodup].
  destruct (counted enrollmentId None row) eqn:Hrow; [| apply IH; exact Hnodup].
  simpl. apply NoDup_cons. split; [| apply IH; exact Hnodup].
  intros Hin. apply list_elem_of_In in Hin. apply in_map_iff in Hin as (p & Hp & Hin).
  apply filter_In in Hin as [Hin Hcounted]. apply Hnotin.
  apply list_elem_of_fmap. exists p. split; [| apply list_elem_of_In; exact Hin].
  unfold CourseProgress.pair_of. rewrite Hp. f_equal.
  unfold counted in Hrow, Hcounted. rewrite andb_true_r in Hrow, Hcounted.
  apply String.eqb_eq in Hrow, Hcounted. congruence.
Qed.

(** A call that returns has stored a row of the pair with the requested
    status, from which the response is made; the row was appended when
    the pair had none, and put in the place of its first row otherwise. *)
Lemma updateProgress_stored (dto : UpdateProgressDto) (w w' : World)
    (response : CourseProgressResponseDto) :
  updateProgress dto w = (Returned response, w') ->
  let rows := progressRepo (database w) in
  let rows' := progressRepo (database w') in
  let matches := progress_matches (enrollmentId dto) (lessonId dto) in
  exists place row,
    rows' !! place = Some row
    /\ matches row
    /\ CourseProgress.status row = status dto
    /\ response = row_response row
    /\ ((list_find matches rows = None /\ rows' = (rows ++ [row])%list)
        \/ (exists old, list_find matches rows = Some (place, old)
                        /\ rows' = <[place := row]> rows)).
Proof.
  intros Hrun. cbv zeta.
  destruct (updateProgress_table dto w w' _ Hrun)
    as [(e & Habs & _)
       | (rows' & place & row & Hout & Hdb & Hrow & Hstatus & Hcases)];
    [discriminate |].
  cbv zeta in *. injection Hout as ->. rewrite Hdb. simpl progressRepo.
  exists place, row.
  split; [| split; [exact Hrow | split; [exact Hstatus | split; [reflexivity |]]]].
  - destruct Hcases as [(_ & -> & ->) | (old & Hfind & _ & ->)].
    + rewrite lookup_app_r by lia. rewrite Nat.sub_diag. reflexivity.
    + apply list_find_Some in Hfind as (Hplace & _ & _).
      apply list_lookup_insert_eq. eapply lookup_lt_Some. exact Hplace.
  - destruct Hcases as [(Hnone & _ & ->) | (old & Hfind & _ & ->)].
    + left. auto.
    + right. exists old. auto.
Qed.

(** A filter that asks for more keeps fewer elements. *)
Lemma filter_length_le {A : Type} (f g : A -> bool) (l : list A) :
  (forall x, f x = true -> g x = true) ->
  length (List.filter f l) <= length (List.filter g l).
Proof.
  intros Himp. induction l as [| x l IH]; simpl; [lia |].
  destruct (f x) eqn:Hf.
  - rewrite (Himp x Hf). simpl. lia.
  - destruct (g x); simpl; lia.
Qed.

(** A filter that keeps everything keeps the length. *)
Lemma filter_all_length {A : Type} (l : list A) :
  length (List.filter (fun _ => true) l) = length l.
Proof. induction l as [| x l IH]; simpl; [reflexivity | rewrite IH; reflexivity]. Qed.

(** A list of length one that holds an element is that element. *)
Lemma length_1_In {A : Type} (l : list A) (x : A) :
  length l = 1 -> In x l -> l = [x].
Proof.
  destruct l as [| y [| z l]]; simpl; try discriminate.
  intros _ [-> | []]. reflexivity.
Qed.

End ReportingFacts.

Section ProgressExtras.

Import Repository Gate CourseProgressService Reporting Ledger.

(** X9.  [updateProgress] never completes a lesson one of whose quizzes
    the user has not passed: when a call with status COMPLETED returns,
    every quiz of the quiz table that belongs to the lesson has an attempt
    of the enrollment's user with passed = true. *)
Theorem completion_requires_passed_quizzes (dto : UpdateProgressDto)
    (w w' : World) (enrollment : Enrollment.t)
    (response : CourseProgressResponseDto) :
  select_enrollment (database w) (enrollmentId dto) = Some enrollment ->
  status dto = COMPLETED ->
  updateProgress dto w = (Returned response, w') ->
  forall quiz,
    In quiz (quizRepo (database w)) ->
    Quiz.lesson_id quiz = lessonId dto ->
    has_passed (database w) (User.id (Enrollment.user enrollment)) (Quiz.id quiz).
Proof.
  intros He Hstatus Hrun quiz Hin Hlesson.
  destruct (updateProgress_returned dto w w' response Hrun)
    as (en & le & He' & _ & Hgate).
  assert (en = enrollment) as -> by congruence.
  unfold blocking_quiz in Hgate.
  rewrite bool_decide_eq_true_2 in Hgate by exact Hstatus.
  apply met_has_passed. apply (proj1 (first_unmet_None _ _ _) Hgate).
  apply select_quizzes_In. split; assumption.
Qed.

(** Quiz A passed and no other quiz on the lesson: the completion
    returns, and quiz A has a passed attempt. *)
Lemma completion_requires_passed_quizzes_witness :
  let w := Sample.store [Sample.quizA] [Sample.attempt "qa" true] [] in
  has_passed (database w) "u1" "qa".
Proof.
  intros w.
  apply (completion_requires_passed_quizzes (Sample.update COMPLETED) w
           (snd (updateProgress (Sample.update COMPLETED) w)) Sample.enrolled
           (MoreSamples.update_response COMPLETED) eq_refl eq_refl eq_refl Sample.quizA).
  - left. reflexivity.
  - reflexivity.
Defined.

(** X10.  When the enrollment and the lesson exist, [updateProgress]
    returns for every status other than COMPLETED, whatever the quiz and
    attempt tables hold; and it returns for COMPLETED when the attempt
    table has at most one attempt per user and quiz and every quiz of the
    lesson has a passed attempt of the user. *)
Theorem updateProgress_succeeds (dto : UpdateProgressDto) (w : World)
    (enrollment : Enrollment.t) (lesson : Lesson.t) :
  select_enrollment (database w) (enrollmentId dto) = Some enrollment ->
  select_lesson (database w) (lessonId dto) = Some lesson ->
  status dto <> COMPLETED
  \/ (single_attempts (database w)
      /\ forall quiz,
           In quiz (quizRepo (database w)) ->
           Quiz.lesson_id quiz = lessonId dto ->
           has_passed (database w) (User.id (Enrollment.user enrollment))
             (Quiz.id quiz)) ->
  exists response w',
    updateProgress dto w = (Returned response, w')
    /\ response_status response = status dto.
Proof.
  intros He Hl Hok.
  pose proof (updateProgress_found dto w enrollment lesson He Hl) as Hrun.
  cbv zeta in Hrun.
  assert (Hgate : blocking_quiz (database w) (User.id (Enrollment.user enrollment))
                    (lessonId dto) (status dto) = None).
  { unfold blocking_quiz. destruct Hok as [Hother | [Hsingle Hpassed]].
    - rewrite bool_decide_eq_false_2 by exact Hother. reflexivity.
    - destruct (bool_decide (status dto = COMPLETED)); [| reflexivity].
      apply first_unmet_None. intros quiz Hin.
      apply select_quizzes_In in Hin as [Hin Hlesson].
      apply has_passed_met; [exact Hsingle | auto]. }
  rewrite Hgate in Hrun. eexists _, _. split; [exact Hrun |].
  destruct (entity_to_save_cases (database w) enrollment lesson (enrollmentId dto)
              (lessonId dto) (status dto)) as [[_ Hp] | (i & old & _ & Hp)];
    cbv zeta in Hp; rewrite Hp; reflexivity.
Qed.

(** An update to IN_PROGRESS while quiz B is not passed returns. *)
Lemma updateProgress_succeeds_witness :
  exists response w',
    updateProgress (Sample.update IN_PROGRESS) Sample.one_of_two
    = (Returned response, w')
    /\ response_status response = IN_PROGRESS.
Proof.
  apply (updateProgress_succeeds (Sample.update IN_PROGRESS) Sample.one_of_two
           Sample.enrolled Sample.intro eq_refl eq_refl).
  left. discriminate.
Defined.

(** X11.  Whenever [updateProgress] returns, the response carries the
    enrollment id, the lesson id and the status of the request, and the
    progress table holds a row of that pair with that status. *)
Theorem updateProgress_response_echoes (dto : UpdateProgressDto) (w w' : World)
    (response : CourseProgressResponseDto) :
  updateProgress dto w = (Returned response, w') ->
  response_enrollmentId response = enrollmentId dto
  /\ response_lessonId response = lessonId dto
  /\ response_status response = status dto
  /\ exists place row,
       progressRepo (database w') !! place = Some row
       /\ CourseProgress.pair_of row = (enrollmentId dto, lessonId dto)
       /\ CourseProgress.status row = status dto
       /\ response = row_response row.
Proof.
  intros Hrun.
  destruct (updateProgress_table dto w w' _ Hrun)
    as [(e & Habs & _)
       | (rows' & place & row & Hout & Hdb & Hrow & Hstatus & Hcases)];
    [discriminate |].
  cbv zeta in *. injection Hout as ->. pose proof Hrow as Hpair.
  unfold progress_matches, CourseProgress.pair_of in Hpair.
  injection Hpair as Hen Hle. simpl.
  split; [exact Hen |]. split; [exact Hle |]. split; [exact Hstatus |].
  exists place, row. rewrite Hdb. simpl progressRepo.
  split; [| split; [exact Hrow | split; [exact Hstatus | reflexivity]]].
  destruct Hcases as [(_ & -> & ->) | (old & Hfind & _ & ->)].
  - rewrite lookup_app_r by lia. rewrite Nat.sub_diag. reflexivity.
  - apply list_find_Some in Hfind as (Hplace & _ & _).
    apply list_lookup_insert_eq. eapply lookup_lt_Some. exact Hplace.
Qed.

(** The completion of the lesson without quizzes. *)
Lemma updateProgress_response_echoes_witness :
  response_status (MoreSamples.update_response COMPLETED) = COMPLETED
  /\ response_lessonId (MoreSamples.update_response COMPLETED) = "l1".
Proof.
  destruct (updateProgress_response_echoes (Sample.update COMPLETED) Sample.no_quiz
              (snd (updateProgress (Sample.update COMPLETED) Sample.no_quiz))
              (MoreSamples.update_response COMPLETED) eq_refl)
    as (_ & Hlesson & Hstatus & _).
  split; assumption.
Defined.

End ProgressExtras.

Section ReportExtras.

Import Repository Gate CourseProgressService Reporting Ledger.

(** X12.  What [updateProgress] returns can be read back: in the world
    the call leaves, [getCourseProgress] of the enrollment returns a list
    that holds the response of the call. *)
Theorem getCourseProgress_reads_update (dto : UpdateProgressDto) (w w' : World)
    (response : CourseProgressResponseDto) :
  updateProgress dto w = (Returned response, w') ->
  exists entries,
    getCourseProgress (enrollmentId dto) w' = (Returned entries, w')
    /\ In response entries.
Proof.
  intros Hrun. rewrite getCourseProgress_run. eexists. split; [reflexivity |].
  destruct (updateProgress_table dto w w' _ Hrun)
    as [(e & Habs & _)
       | (rows' & place & row & Hout & Hdb & Hrow & Hstatus & Hcases)];
    [discriminate |].
  cbv zeta in *. injection Hout as ->. rewrite Hdb. simpl progressRepo.
  change (responseToDto _) with (row_response row).
  apply in_map. unfold rows_of_enrollment. apply filter_In. split.
  - apply list_elem_of_In. apply (list_elem_of_lookup_2 _ place).
    destruct Hcases as [(_ & -> & ->) | (old & Hfind & _ & ->)].
    + rewrite lookup_app_r by lia. rewrite Nat.sub_diag. reflexivity.
    + apply list_find_Some in Hfind as (Hplace & _ & _).
      apply list_lookup_insert_eq. eapply lookup_lt_Some. exact Hplace.
  - rewrite (counted_pair _ _ (enrollmentId dto) row Hrow).
    apply bool_decide_eq_true_2. reflexivity.
Qed.

(** After the completion of the lesson without quizzes the progress of
    the enrollment shows it. *)
Lemma getCourseProgress_reads_update_witness :
  exists entries,
    fst (getCourseProgress "e1"
           (snd (updateProgress (Sample.update COMPLETED) Sample.no_quiz)))
    = Returned entries
    /\ In (MoreSamples.update_response COMPLETED) entries.
Proof.
  destruct (getCourseProgress_reads_update (Sample.update COMPLETED) Sample.no_quiz
              (snd (updateProgress (Sample.update COMPLETED) Sample.no_quiz))
              (MoreSamples.update_response COMPLETED) eq_refl)
    as (entries & Hread & Hin).
  exists entries. split; [| exact Hin].
  change (enrollmentId (Sample.update COMPLETED)) with "e1" in Hread.
  rewrite Hread. reflexivity.
Defined.

(** X13.  The two reads of an enrollment agree: [getCourseProgress]
    returns one entry per row of the enrollment, each carrying the
    enrollment's id; the total of [getCompletionRate] is the number of
    entries and its completed count is the number of entries with status
    COMPLETED, which is at most the total; and on a table with at most
    one row per pair no two entries are of the same lesson. *)
Theorem reports_agree (enrollmentId : string) (w : World) :
  exists entries rate w',
    getCourseProgress enrollmentId w = (Returned entries, w)
    /\ getCompletionRate enrollmentId w = (Returned rate, w')
    /\ Forall (fun r => response_enrollmentId r = enrollmentId) entries
    /\ total rate = length entries
    /\ completed rate = length (with_status COMPLETED entries)
    /\ completed rate <= total rate
    /\ (unique_pairs (progressRepo (database w)) ->
        NoDup (List.map response_lessonId entries)).
Proof.
  rewrite getCourseProgress_run, getCompletionRate_run. cbv zeta.
  pose proof (count_completed_le_total (database w) enrollmentId) as Hle.
  pose proof (with_status_length (progressRepo (database w)) enrollmentId COMPLETED)
    as Hcompleted.
  assert (Hids : Forall (fun r => response_enrollmentId r = enrollmentId)
                   (List.map row_response
                      (rows_of_enrollment (progressRepo (database w)) enrollmentId))).
  { apply Forall_forall. intros r Hin. apply list_elem_of_In in Hin.
    apply in_map_iff in Hin as (p & <- & Hp).
    apply filter_In in Hp as [_ Hp]. unfold counted in Hp.
    rewrite andb_true_r in Hp. apply String.eqb_eq in Hp. exact Hp. }
  assert (Hlessons : unique_pairs (progressRepo (database w)) ->
            NoDup (List.map response_lessonId
                     (List.map row_response
                        (rows_of_enrollment (progressRepo (database w)) enrollmentId)))).
  { intros Hinv. rewrite map_map. apply rows_of_enrollment_lessons. exact Hinv. }
  unfold count_progress in *. fold (rows_of_enrollment (progressRepo (database w))
                                      enrollmentId) in *.
  destruct (length (rows_of_enrollment (progressRepo (database w)) enrollmentId)
            =? 0)%nat eqn:Hzero.
  - apply Nat.eqb_eq in Hzero. eexists _, _, _.
    split; [reflexivity |]. split; [reflexivity |]. simpl.
    split; [exact Hids |]. rewrite length_map.
    split; [lia |]. split; [rewrite Hcompleted; lia |]. split; [lia | exact Hlessons].
  - eexists _, _, _. split; [reflexivity |]. split; [reflexivity |]. simpl.
    split; [exact Hids |]. rewrite length_map.
    split; [reflexivity |]. split; [symmetry; exact Hcompleted |].
    split; [exact Hle | exact Hlessons].
Qed.

(** Alice has one entry, of one lesson, not completed. *)
Lemma reports_agree_witness :
  exists entries,
    fst (getCourseProgress "e1" MoreSamples.two_enrollments) = Returned entries
    /\ NoDup (List.map response_lessonId entries)
    /\ length (with_status COMPLETED entries) <= length entries.
Proof.
  destruct (reports_agree "e1" MoreSamples.two_enrollments)
    as (entries & rate & w' & Hread & _ & _ & Htotal & Hcompleted & Hle & Hlessons).
  exists entries. rewrite Hread. split; [reflexivity |]. split.
  - apply Hlessons. apply NoDup_cons. split; [| apply NoDup_singleton].
    intros Hin. apply list_elem_of_singleton in Hin. discriminate Hin.
  - rewrite <- Htotal, <- Hcompleted. exact Hle.
Defined.

(** X14.  An update of one enrollment does not show in the reads of
    another: whatever the outcome of [updateProgress], [getCourseProgress]
    of any other enrollment returns afterwards what it returned before,
    and so does [getCompletionRate]. *)
Theorem updateProgress_other_enrollment (dto : UpdateProgressDto) (w w' : World)
    (outcome : Outcome CourseProgressResponseDto) (other : string) :
  updateProgress dto w = (outcome, w') ->
  other <> enrollmentId dto ->
  fst (getCourseProgress other w') = fst (getCourseProgress other w)
  /\ fst (getCompletionRate other w') = fst (getCompletionRate other w).
Proof.
  intros Hrun Hother.
  pose proof (updateProgress_other_rows dto w w' outcome other Hrun Hother) as Hrows.
  split.
  - rewrite !getCourseProgress_run. simpl. rewrite Hrows. reflexivity.
  - assert (Htotal : count_progress (database w') other None
                     = count_progress (database w) other None).
    { unfold count_progress. fold (rows_of_enrollment (progressRepo (database w')) other).
      rewrite Hrows. reflexivity. }
    assert (Hcompleted : count_progress (database w') other (Some COMPLETED)
                         = count_progress (database w) other (Some COMPLETED)).
    { unfold count_progress.
      rewrite <- !(with_status_length _ other COMPLETED), Hrows. reflexivity. }
    rewrite !getCompletionRate_run. cbv zeta. rewrite Htotal, Hcompleted.
    destruct (count_progress (database w) other None =? 0)%nat; reflexivity.
Qed.

(** Alice's lesson is completed; Bob's progress reads as before. *)
Lemma updateProgress_other_enrollment_witness :
  fst (getCourseProgress "e2"
         (snd (updateProgress (Sample.update COMPLETED) MoreSamples.two_enrollments)))
  = fst (getCourseProgress "e2" MoreSamples.two_enrollments).
Proof.
  apply (updateProgress_other_enrollment (Sample.update COMPLETED)
           MoreSamples.two_enrollments
           (snd (updateProgress (Sample.update COMPLETED) MoreSamples.two_enrollments))
           (fst (updateProgress (Sample.update COMPLETED) MoreSamples.two_enrollments))
           "e2" eq_refl).
  discriminate.
Defined.

End ReportExtras.

Section LedgerExtras.

Import Repository Gate CourseProgressService Reporting Ledger.

(** X15.  The last update of a pair wins: after two calls of
    [updateProgress] for the same enrollment and lesson that both return,
    on a table that had at most one row per pair, the second call has
    added no row, the pair has exactly one row, and this row carries the
    status of the second call and is what the second response shows. *)
Theorem updateProgress_last_status_wins (enrollmentId lessonId : string)
    (first second : ProgressStatus) (w w1 w2 : World)
    (response1 response2 : CourseProgressResponseDto) :
  unique_pairs (progressRepo (database w)) ->
  updateProgress {| enrollmentId := enrollmentId; lessonId := lessonId;
                    status := first |} w = (Returned response1, w1) ->
  updateProgress {| enrollmentId := enrollmentId; lessonId := lessonId;
                    status := second |} w1 = (Returned response2, w2) ->
  length (progressRepo (database w2)) = length (progressRepo (database w1))
  /\ exists row,
       rows_of_pair (progressRepo (database w2)) enrollmentId lessonId = [row]
       /\ CourseProgress.status row = second
       /\ response2 = row_response row.
Proof.
  intros Hinv Hrun1 Hrun2.
  pose proof (updateProgress_unique_pairs _ _ _ _ Hinv Hrun1) as Hinv1.
  pose proof (updateProgress_unique_pairs _ _ _ _ Hinv1 Hrun2) as Hinv2.
  destruct (updateProgress_stored _ _ _ _ Hrun1)
    as (place1 & row1 & Hstored1 & Hrow1 & _ & _ & _).
  destruct (updateProgress_stored _ _ _ _ Hrun2)
    as (place2 & row2 & Hstored2 & Hrow2 & Hstatus2 & Hresponse2 & Hcases).
  cbv zeta in *. simpl in Hrow1, Hrow2, Hstatus2, Hcases.
  split.
  - destruct Hcases as [(Hnone & _) | (old & _ & ->)].
    + exfalso. apply list_find_None in Hnone. rewrite Forall_forall in Hnone.
      apply (Hnone row1); [| exact Hrow1].
      eapply list_elem_of_lookup_2. exact Hstored1.
    + apply length_insert.
  - exists row2. split; [| split; assumption].
    apply length_1_In.
    + apply Nat.le_antisymm; [apply rows_of_pair_le_1; exact Hinv2 |].
      eapply rows_of_pair_ge_1; eassumption.
    + unfold rows_of_pair. apply filter_In. split.
      * apply list_elem_of_In. eapply list_elem_of_lookup_2. exact Hstored2.
      * apply bool_decide_eq_true_2. exact Hrow2.
Qed.

(** IN_PROGRESS, then COMPLETED, on the lesson without quizzes: one row,
    completed. *)
Lemma updateProgress_last_status_wins_witness :
  let w1 := snd (updateProgress (Sample.update IN_PROGRESS) Sample.no_quiz) in
  let w2 := snd (updateProgress (Sample.update COMPLETED) w1) in
  exists row,
    rows_of_pair (progressRepo (database w2)) "e1" "l1" = [row]
    /\ CourseProgress.status row = COMPLETED.
Proof.
  intros w1 w2.
  destruct (updateProgress_last_status_wins "e1" "l1" IN_PROGRESS COMPLETED
              Sample.no_quiz w1 w2
              (MoreSamples.update_response IN_PROGRESS)
              (MoreSamples.update_response COMPLETED)
              (NoDup_nil_2 (A := string * string)) eq_refl eq_refl)
    as (_ & row & Hrows & Hstatus & _).
  exists row. split; assumption.
Defined.

(** X16.  [updateProgress] adds at most one row and removes none: the
    progress table, the rows of the enrollment and the rows [getAnalytics]
    counts each grow by one when the call returns and the pair had no
    row, and keep their number otherwise (when the call throws, or when
    the pair already had a row). *)
Theorem updateProgress_row_count (dto : UpdateProgressDto) (w w' : World)
    (outcome : Outcome CourseProgressResponseDto) :
  updateProgress dto w = (outcome, w') ->
  let rows := progressRepo (database w) in
  let rows' := progressRepo (database w') in
  let added :=
    match outcome, rows_of_pair rows (enrollmentId dto) (lessonId dto) with
    | Returned _, [] => 1
    | _, _ => 0
    end in
  length rows' = length rows + added
  /\ count_progress (database w') (enrollmentId dto) None
     = count_progress (database w) (enrollmentId dto) None + added
  /\ count_all (database w') None = count_all (database w) None + added.
Proof.
  intros Hrun. cbv zeta.
  assert (Hall : forall db, count_all db None = length (progressRepo db)).
  { intros db. apply filter_all_length. }
  rewrite !Hall. unfold count_progress.
  destruct outcome as [response | e].
  - destruct (updateProgress_stored _ _ _ _ Hrun)
      as (place & row & _ & Hrow & _ & _ & Hcases).
    cbv zeta in *.
    assert (Hcounted : forall p,
              progress_matches (enrollmentId dto) (lessonId dto) p ->
              counted (enrollmentId dto) None p = true).
    { intros p Hp. rewrite (counted_pair _ _ (enrollmentId dto) p Hp).
      apply bool_decide_eq_true_2. reflexivity. }
    destruct Hcases as [(Hnone & ->) | (old & Hfind & ->)].
    + rewrite (proj2 (rows_of_pair_nil _ _ _) Hnone).
      rewrite length_app, List.filter_app, length_app. simpl.
      rewrite (Hcounted row Hrow). simpl. lia.
    + destruct (rows_of_pair (progressRepo (database w)) (enrollmentId dto)
                  (lessonId dto)) eqn:Hpair.
      { apply rows_of_pair_nil in Hpair. congruence. }
      apply list_find_Some in Hfind as (Hplace & Hold & _).
      rewrite length_insert.
      rewrite (filter_length_insert _ _ place old row Hplace)
        by (rewrite (Hcounted row Hrow), (Hcounted old Hold); reflexivity).
      lia.
  - destruct (updateProgress_table dto w w' _ Hrun)
      as [(e' & _ & Hdb) | (rows' & place & row & Hout & _)]; [| discriminate].
    rewrite Hdb. lia.
Qed.

(** A first update of the pair adds its row. *)
Lemma updateProgress_row_count_witness :
  length (progressRepo
            (database (snd (updateProgress (Sample.update IN_PROGRESS)
                              Sample.no_quiz))))
  = 1.
Proof.
  apply (updateProgress_row_count (Sample.update IN_PROGRESS) Sample.no_quiz
           (snd (updateProgress (Sample.update IN_PROGRESS) Sample.no_quiz))
           (fst (updateProgress (Sample.update IN_PROGRESS) Sample.no_quiz))
           eq_refl).
Defined.

(** X17.  [getAnalytics] counts the whole table: its total is the number
    of progress rows, its completed count is at most the total, with an
    empty table both counts and the rate are 0 and nothing is divided,
    and the counts [getCompletionRate] returns for any one enrollment are
    at most the counts of [getAnalytics]. *)
Theorem getAnalytics_counts (PERCENTAGE_MULTIPLIER : JS.Number) (w : World) :
  exists analytics,
    getAnalytics PERCENTAGE_MULTIPLIER w = (Returned analytics, w)
    /\ totalProgress analytics = length (progressRepo (database w))
    /\ analytics_completed analytics <= totalProgress analytics
    /\ (progressRepo (database w) = [] ->
        analytics_completed analytics = 0
        /\ overallCompletionRate analytics = JS.of_Z 0)
    /\ (progressRepo (database w) <> [] ->
        overallCompletionRate analytics
        = JS.mul (JS.div (JS.of_Z (Z.of_nat (analytics_completed analytics)))
                         (JS.of_Z (Z.of_nat (totalProgress analytics))))
                 PERCENTAGE_MULTIPLIER)
    /\ (forall enrollmentId rate w',
          getCompletionRate enrollmentId w = (Returned rate, w') ->
          total rate <= totalProgress analytics
          /\ completed rate <= analytics_completed analytics).
Proof.
  unfold getAnalytics, bind, progress_count_all, read_only, ret.
  eexists. split; [reflexivity |]. simpl.
  assert (Hall : count_all (database w) None = length (progressRepo (database w))).
  { apply filter_all_length. }
  rewrite Hall. split; [reflexivity |]. split.
  { unfold count_all.
    pose proof (filter_length_le
                  (fun p => bool_decide (CourseProgress.status p = COMPLETED))
                  (fun _ => true) (progressRepo (database w)) (fun _ _ => eq_refl))
      as Hle.
    rewrite filter_all_length in Hle. exact Hle. }
  split.
  { intros Hnil. unfold count_all. rewrite Hnil. split; reflexivity. }
  split.
  { intros Hne. destruct (progressRepo (database w)); [congruence | reflexivity]. }
  intros enrollmentId rate w' Hrate.
  rewrite getCompletionRate_run in Hrate. cbv zeta in Hrate.
  assert (Htotal : count_progress (database w) enrollmentId None
                   <= length (progressRepo (database w))).
  { unfold count_progress.
    pose proof (filter_length_le (counted enrollmentId None) (fun _ => true)
                  (progressRepo (database w)) (fun _ _ => eq_refl)) as Hle.
    rewrite filter_all_length in Hle. exact Hle. }
  assert (Hcompleted : count_progress (database w) enrollmentId (Some COMPLETED)
                       <= count_all (database w) (Some COMPLETED)).
  { unfold count_progress, count_all. apply filter_length_le.
    intros p Hp. unfold counted in Hp. apply andb_true_iff in Hp as [_ Hp].
    exact Hp. }
  destruct (count_progress (database w) enrollmentId None =? 0)%nat;
    injection Hrate as <- _; simpl; lia.
Qed.

(** Two rows in the table, one of them Alice's. *)
Lemma getAnalytics_counts_witness :
  exists analytics,
    fst (getAnalytics (JS.of_Z 100) MoreSamples.two_enrollments) = Returned analytics
    /\ totalProgress analytics = 2
    /\ count_progress (database MoreSamples.two_enrollments) "e1" None
       <= totalProgress analytics.
Proof.
  destruct (getAnalytics_counts (JS.of_Z 100) MoreSamples.two_enrollments)
    as (analytics & Hrun & Htotal & _ & _ & _ & Hbound).
  exists analytics. rewrite Hrun. split; [reflexivity |]. split; [exact Htotal |].
  destruct (Hbound "e1" _ _ (surjective_pairing _)) as [Hle _].
  exact Hle.
Defined.

End LedgerExtras.
